(** * Investment analysis: the scoring and recommendation engine of app.py

    A shallow embedding of the calculation functions and of the three
    request handlers that carry logic (recommendations, comparison), with
    the properties the specification states about them.

    Numbers.  The program computes with Python numbers (SQLite REAL columns,
    JSON numbers).  They are embedded as exact rationals [Q]: every formula
    of the source is kept operation for operation, rounding is not modelled.
    Comparisons are the numeric ones ([==], [<=] on [Q]).

    Exceptions.  A division by zero and a failed dictionary lookup raise in
    Python; the embedding keeps them in a small error monad.

    Text.  A string is the sequence of bytes of the Python text (UTF-8).
    [lower] and [strip] act on the ASCII letters and the ASCII whitespace,
    which is what str.lower and str.strip do on ASCII text; the statements
    that say exactly which texts match are about ASCII text and carry the
    hypothesis [is_ascii].

    Row ids.  SQLite stores, and sqlite3 binds, signed 64-bit integers: an id
    outside that range makes conn.execute raise OverflowError, which the
    embedding leaves out.  The statements about the ids of a JSON request
    body (profile_id, property_ids) assume [sqlite_int] of them. *)

From Stdlib Require Import QArith Qminmax ZArith List String Ascii Bool.
From Stdlib Require Import Lia Lqa Sorted Permutation.
Import ListNotations.

Local Open Scope Q_scope.

(** ** Exceptions *)

Inductive exn : Type :=
| ZeroDivisionError
| KeyError (key : string).

Inductive result (A : Type) : Type :=
| Ok (a : A)
| Raise (e : exn).

Arguments Ok {A} a.
Arguments Raise {A} e.

Definition bind {A B : Type} (c : result A) (k : A -> result B) : result B :=
  match c with
  | Ok a => k a
  | Raise e => Raise e
  end.

Notation "x <- c ;; k" := (bind c (fun x => k))
  (at level 61, c at next level, right associativity).

(** [for x in xs: ys.append(f x)], stopping at the first exception. *)
Fixpoint mapM {A B : Type} (f : A -> result B) (xs : list A) : result (list B) :=
  match xs with
  | [] => Ok []
  | x :: t => y <- f x ;; ys <- mapM f t ;; Ok (y :: ys)
  end.

(** ** Python arithmetic on the rational embedding *)

Definition Qlt_bool (x y : Q) : bool := negb (Qle_bool y x).

(** [a / b]: raises ZeroDivisionError on a zero divisor. *)
Definition py_div (a b : Q) : result Q :=
  if Qeq_bool b 0 then Raise ZeroDivisionError else Ok (a / b).

(** [max(a, b)]: the first argument unless the second is strictly greater. *)
Definition py_max (a b : Q) : Q := if Qlt_bool a b then b else a.

(** [min(a, b)]: the first argument unless the second is strictly smaller. *)
Definition py_min (a b : Q) : Q := if Qlt_bool b a then b else a.

(** ** Python string operations (ASCII) *)

Definition lower_ascii (c : ascii) : ascii :=
  let n := nat_of_ascii c in
  if (65 <=? n)%nat && (n <=? 90)%nat then ascii_of_nat (n + 32) else c.

(** [s.lower()], on ASCII text: the letters A-Z, no other byte. *)
Fixpoint lower (s : string) : string :=
  match s with
  | EmptyString => EmptyString
  | String c t => String (lower_ascii c) (lower t)
  end.

(** The characters [str.strip()] removes: tab, line feed, vertical tab, form
    feed, carriage return, the four separators 28-31 and the space. *)
Definition is_space (c : ascii) : bool :=
  let n := nat_of_ascii c in
  ((9 <=? n)%nat && (n <=? 13)%nat) || ((28 <=? n)%nat && (n <=? 32)%nat).

Fixpoint lstrip (s : string) : string :=
  match s with
  | EmptyString => EmptyString
  | String c t => if is_space c then lstrip t else s
  end.

Fixpoint rstrip (s : string) : string :=
  match s with
  | EmptyString => EmptyString
  | String c t =>
      match rstrip t with
      | EmptyString => if is_space c then EmptyString else String c EmptyString
      | t' => String c t'
      end
  end.

(** [s.strip()], on ASCII text: the whitespace above at both ends. *)
Definition strip (s : string) : string := rstrip (lstrip s).

(** [s.split(',')]: the fields between commas; never an empty list. *)
Fixpoint split_comma (s : string) : list string :=
  match s with
  | EmptyString => [EmptyString]
  | String c t =>
      if Ascii.eqb c ","%char then EmptyString :: split_comma t
      else match split_comma t with
           | [] => [String c EmptyString]
           | w :: ws => String c w :: ws
           end
  end.

(** [pref in s]: [pref] occurs in [s] as a contiguous substring. *)
Fixpoint str_in (pref s : string) : bool :=
  String.prefix pref s ||
  match s with
  | EmptyString => false
  | String _ t => str_in pref t
  end.

(** [if s:] on an optional string: None and the empty string are falsy. *)
Definition truthy_str (s : option string) : bool :=
  match s with
  | None => false
  | Some EmptyString => false
  | Some _ => true
  end.

(** ** Data model: the rows of the three tables *)

Module Property.
Record t : Type := mk {
    id : Z;
    name : string;
    location : string;
    price : Q;
    size : Q;
    annual_rental_income : Q;
    maintenance_cost : Q;
    risk_level : string;
    property_type : string;
    year_built : option Z;
    description : option string
  }.
End Property.

Module Profile.
Record t : Type := mk {
    id : option Z;
    name : string;
    budget_min : Q;
    budget_max : Q;
    risk_tolerance : string;
    investment_horizon : string;
    preferred_locations : option string;
    min_rental_yield : Q;
    min_roi : Q
  }.
End Profile.

(** ** Investment calculation functions *)

(** app.py, calculate_rental_yield *)
Definition calculate_rental_yield (annual_rental_income property_price : Q)
  : result Q :=
  q <- py_div annual_rental_income property_price ;;
  Ok (q * 100).

(** app.py, calculate_net_roi *)
Definition calculate_net_roi (annual_rental_income maintenance_cost property_price : Q)
  : result Q :=
  let net_income := annual_rental_income - maintenance_cost in
  q <- py_div net_income property_price ;;
  Ok (q * 100).


(** ** The score model *)

(** A Python dict with string keys, in insertion order; a missing key raises. *)
Fixpoint dict_get {V : Type} (d : list (string * V)) (k : string) : result V :=
  match d with
  | [] => Raise (KeyError k)
  | (k', v) :: t => if String.eqb k' k then Ok v else dict_get t k
  end.

(** The lines of reasoning, one constructor per f-string of the source, with
    the values the f-string formats. *)
Inductive reason : Type :=
| PriceFits (price : Q)
| PriceExceeds (percent_over : Q)
| PriceBelowMinimum
| RiskMatches (risk_level : string)
| RiskPartial (risk_level : string)
| YieldExceeds (rental_yield yield_excess : Q)
| YieldBelow (rental_yield yield_gap : Q)
| RoiExceeds (net_roi roi_excess : Q)
| RoiBelow (net_roi roi_gap : Q)
| LocationMatches.

Definition risk_match : list (string * list (string * Q)) :=
  [ ("Low"%string,    [("Low"%string, 20); ("Medium"%string, 10); ("High"%string, 5)]);
    ("Medium"%string, [("Low"%string, 15); ("Medium"%string, 20); ("High"%string, 15)]);
    ("High"%string,   [("Low"%string, 10); ("Medium"%string, 15); ("High"%string, 20)]) ].

(** The local variables of calculate_investment_score when it returns. *)
Record locals : Type := mk_locals {
  price_fit : Q;
  risk_score : Q;
  yield_score : Q;
  roi_score : Q;
  location_bonus : Q;
  score : Q;
  reasoning_parts : list reason
}.

Section Score.
Variable property : Property.t.
Variable profile : Profile.t.

(** # Price fit (25 points) *)
Definition price_section : result (Q * reason) :=
  let price := Property.price property in
  let budget_min := Profile.budget_min profile in
  let budget_max := Profile.budget_max profile in
  if Qle_bool budget_min price && Qle_bool price budget_max then
    Ok (25, PriceFits price)
  else
    price_ratio <- (if Qlt_bool budget_max price
                    then py_div price budget_max
                    else py_div budget_min price) ;;
    let price_fit := py_max 0 (25 - (price_ratio - 1) * 50) in
    if Qlt_bool budget_max price then
      q <- py_div price budget_max ;;
      Ok (price_fit, PriceExceeds ((q - 1) * 100))
    else
      Ok (price_fit, PriceBelowMinimum).

(** # Risk alignment (20 points) *)
Definition risk_section : result (Q * reason) :=
  row <- dict_get risk_match (Profile.risk_tolerance profile) ;;
  risk_score <- dict_get row (Property.risk_level property) ;;
  Ok (risk_score,
      if Qeq_bool risk_score 20
      then RiskMatches (Property.risk_level property)
      else RiskPartial (Property.risk_level property)).

(** # Rental yield performance (30 points) *)
Definition yield_section : result (Q * reason) :=
  rental_yield <- calculate_rental_yield
                    (Property.annual_rental_income property)
                    (Property.price property) ;;
  if Qle_bool (Profile.min_rental_yield profile) rental_yield then
    let yield_excess := rental_yield - Profile.min_rental_yield profile in
    Ok (py_min 30 (20 + yield_excess * 2), YieldExceeds rental_yield yield_excess)
  else
    let yield_gap := Profile.min_rental_yield profile - rental_yield in
    Ok (py_max 0 (20 - yield_gap * 3), YieldBelow rental_yield yield_gap).

(** # Net ROI performance (25 points) *)
Definition roi_section : result (Q * reason) :=
  net_roi <- calculate_net_roi
               (Property.annual_rental_income property)
               (Property.maintenance_cost property)
               (Property.price property) ;;
  if Qle_bool (Profile.min_roi profile) net_roi then
    let roi_excess := net_roi - Profile.min_roi profile in
    Ok (py_min 25 (15 + roi_excess * 2), RoiExceeds net_roi roi_excess)
  else
    let roi_gap := Profile.min_roi profile - net_roi in
    Ok (py_max 0 (15 - roi_gap * 3), RoiBelow net_roi roi_gap).

(** [[loc.strip().lower() for loc in preferred_locations.split(',')]] *)
Definition preferred_locs (preferred_locations : string) : list string :=
  map (fun loc => lower (strip loc)) (split_comma preferred_locations).

(** # Location preference bonus (up to 10 points) *)
Definition location_section : Q * list reason :=
  if truthy_str (Profile.preferred_locations profile) then
    match Profile.preferred_locations profile with
    | Some s =>
        let property_loc := lower (Property.location property) in
        if existsb (fun pref => str_in pref property_loc) (preferred_locs s)
        then (10, [LocationMatches])
        else (0, [])
    | None => (0, [])
    end
  else (0, []).

(** The body of calculate_investment_score, sections in source order (the
    function reads only the table columns of the dict it is given). *)
Definition score_locals : result locals :=
  p <- price_section ;;
  r <- risk_section ;;
  y <- yield_section ;;
  n <- roi_section ;;
  let l := location_section in
  Ok {| price_fit := fst p;
        risk_score := fst r;
        yield_score := fst y;
        roi_score := fst n;
        location_bonus := fst l;
        score := 0 + fst p + fst r + fst y + fst n + fst l;
        reasoning_parts := [snd p; snd r; snd y; snd n] ++ snd l |}.

(** app.py, calculate_investment_score: [return min(100, score), reasoning_parts] *)
Definition calculate_investment_score : result (Q * list reason) :=
  l <- score_locals ;;
  Ok (py_min 100 (score l), reasoning_parts l).
End Score.

(** calculate_investment_score on a profile dict that may lack the key
    preferred_locations, as the inline profile of a request can: [entry] is
    None for a missing key and [Some v] for the value [v] under the key; the
    other keys are those of [profile].  The function reads the key in its
    last section, [if profile['preferred_locations']:], after the four other
    sections have run. *)
Definition calculate_investment_score_inline (property : Property.t)
  (profile : Profile.t) (entry : option (option string))
  : result (Q * list reason) :=
  match entry with
  | Some v =>
      calculate_investment_score property
        (Profile.mk (Profile.id profile) (Profile.name profile)
           (Profile.budget_min profile) (Profile.budget_max profile)
           (Profile.risk_tolerance profile) (Profile.investment_horizon profile)
           v (Profile.min_rental_yield profile) (Profile.min_roi profile))
  | None =>
      p <- price_section property profile ;;
      r <- risk_section property profile ;;
      y <- yield_section property profile ;;
      n <- roi_section property profile ;;
      Raise (KeyError "preferred_locations")
  end.

(** ** The rows init_db seeds *)

Definition sample_property (i : Z) (n loc : string) (p sz inc mc : Z)
  (risk ty : string) (yr : Z) (d : string) : Property.t :=
  Property.mk i n loc (inject_Z p) (inject_Z sz) (inject_Z inc) (inject_Z mc)
    risk ty (Some yr) (Some d).

Definition sample_properties : list Property.t :=
  [ sample_property 1 "Downtown Luxury Apartment" "Downtown City Center" 450000 1200 36000 4500 "Low" "Apartment" 2020 "Modern luxury apartment in prime location with high demand";
    sample_property 2 "Suburban Family Home" "Green Valley Suburbs" 320000 2000 28800 6400 "Low" "House" 2015 "Spacious family home in growing suburban area";
    sample_property 3 "Beachfront Condo" "Coastal Beach Area" 580000 1500 52200 8700 "Medium" "Condo" 2018 "Premium beachfront property with vacation rental potential";
    sample_property 4 "Urban Studio" "University District" 180000 600 18000 2700 "Medium" "Studio" 2019 "Compact studio near university, high student demand";
    sample_property 5 "Commercial Office Space" "Business District" 750000 3000 75000 15000 "Medium" "Commercial" 2017 "Prime office space with corporate tenants";
    sample_property 6 "Fixer-Upper Duplex" "Emerging Neighborhood" 220000 1800 21600 8800 "High" "Duplex" 1995 "Value-add opportunity in gentrifying area";
    sample_property 7 "Luxury Villa" "Hillside Estates" 1200000 4500 84000 18000 "Low" "Villa" 2021 "Premium villa with panoramic views";
    sample_property 8 "Budget Apartment" "Industrial Zone" 120000 500 12000 3600 "High" "Apartment" 2005 "Affordable entry-level investment property";
    sample_property 9 "Mid-Rise Condo" "Metro Center" 380000 1100 38000 5700 "Low" "Condo" 2019 "Well-maintained condo with metro access";
    sample_property 10 "Townhouse" "Family District" 425000 2200 40800 6800 "Low" "Townhouse" 2016 "Modern townhouse in family-friendly neighborhood" ]%string%Z.

Definition sample_profile (i : Z) (n : string) (bmin bmax : Z) (risk hor locs : string)
  (my mr : Z) : Profile.t :=
  Profile.mk (Some i) n (inject_Z bmin) (inject_Z bmax) risk hor (Some locs)
    (inject_Z my) (inject_Z mr).

Definition sample_profiles : list Profile.t :=
  [ sample_profile 1 "Conservative End-User" 200000 500000 "Low" "Long-term (10+ years)" "Suburbs, Family District" 5 3;
    sample_profile 2 "Balanced Rental Investor" 150000 600000 "Medium" "Medium-term (5-10 years)" "Downtown, Metro Center" 7 5;
    sample_profile 3 "Aggressive Growth Investor" 100000 400000 "High" "Short-term (1-5 years)" "Emerging, University" 10 8;
    sample_profile 4 "Premium Long-term Holder" 500000 1500000 "Low" "Long-term (10+ years)" "Hillside, Coastal" 6 4;
    sample_profile 5 "Value-Add Specialist" 150000 350000 "High" "Medium-term (5-10 years)" "Emerging, Industrial" 12 10 ]%string%Z.

Definition downtown_apartment : Property.t := nth 0 sample_properties (sample_property 0 "" "" 1 1 0 0 "" "" 0 "").
Definition conservative : Profile.t := nth 0 sample_profiles (sample_profile 0 "" 0 0 "" "" "" 0 0).

(** ** The database and the request handlers *)

(** [prop_dict]: a row of properties with the two computed keys. *)
Module PropDict.
Record t : Type := mk {
  row : Property.t;
  rental_yield : Q;
  net_roi : Q
}.
End PropDict.

(** An element of the list [recommendations] of get_recommendations. *)
Module Recommendation.
Record t : Type := mk {
  property : PropDict.t;
  score : Q;
  reasoning : list reason;
  rental_yield : Q;
  net_roi : Q
}.
End Recommendation.

(** A row of the history table [recommendations]; [reasoning] is the list the
    source joins with line feeds. *)
Module History.
Record row : Type := mk {
  investor_profile_id : option Z;
  property_id : Z;
  rental_yield : Q;
  net_roi : Q;
  score : Q;
  reasoning : list reason
}.
End History.

Record database : Type := mk_database {
  properties : list Property.t;
  investor_profiles : list Profile.t;
  recommendations : list History.row
}.

(** The JSON body of POST /api/recommendations: [profile_id] and
    [custom_profile] are None when the key is absent or null, [top_n] is None
    when the key is absent and an integer otherwise. *)
Module Request.
Record t : Type := mk {
  profile_id : option Z;
  custom_profile : option Profile.t;
  top_n : option Z
}.
End Request.

(** What a handler returns: [jsonify(body)] with status 200, or
    [jsonify({'error': message}), status]. *)
Inductive response (A : Type) : Type :=
| Success (body : A)
| Error (status : Z) (message : string).

Arguments Success {A} body.
Arguments Error {A} status message.

Record recommendations_body : Type := mk_body {
  body_profile : Profile.t;
  body_recommendations : list Recommendation.t;
  total_analyzed : nat
}.

(** [if profile_id:] on an optional integer: None and 0 are falsy. *)
Definition truthy_int (z : option Z) : bool :=
  match z with
  | None => false
  | Some k => negb (k =? 0)%Z
  end.

(** [SELECT * FROM investor_profiles WHERE id = ?], fetchone, for an id that
    sqlite3 can bind ([sqlite_int] in the statements). *)
Definition select_profile (db : database) (profile_id : Z) : option Profile.t :=
  find (fun p => match Profile.id p with
                 | Some i => (i =? profile_id)%Z
                 | None => false
                 end) (investor_profiles db).

(** [SELECT * FROM properties WHERE id = ?], fetchone, for an id that sqlite3
    can bind ([sqlite_int] in the statements). *)
Definition select_property (db : database) (prop_id : Z) : option Property.t :=
  find (fun p => (Property.id p =? prop_id)%Z) (properties db).

(** [l[:k]] for an integer [k]: a negative bound counts from the end. *)
Definition py_slice_to {A : Type} (l : list A) (k : Z) : list A :=
  if (0 <=? k)%Z then firstn (Z.to_nat k) l
  else firstn (Z.to_nat (Z.of_nat (List.length l) + k)) l.

(** [recommendations.sort(key=lambda x: x['score'], reverse=True)].  Python's
    sort is stable, also under reverse=True; the embedding is the stable
    insertion sort, which [sorted_stable_unique] below shows is the only list
    that is sorted by descending score and keeps equal scores in order. *)
Fixpoint insert_desc (x : Recommendation.t) (l : list Recommendation.t)
  : list Recommendation.t :=
  match l with
  | [] => [x]
  | y :: t =>
      if Qlt_bool (Recommendation.score x) (Recommendation.score y)
      then y :: insert_desc x t
      else x :: y :: t
  end.

Definition sort_by_score_desc (l : list Recommendation.t) : list Recommendation.t :=
  fold_right insert_desc [] l.

(** The body of the loop [for prop in properties] of get_recommendations. *)
Definition score_property (profile : Profile.t) (prop : Property.t)
  : result Recommendation.t :=
  rental_yield <- calculate_rental_yield
                    (Property.annual_rental_income prop) (Property.price prop) ;;
  net_roi <- calculate_net_roi
               (Property.annual_rental_income prop)
               (Property.maintenance_cost prop) (Property.price prop) ;;
  let prop_dict := PropDict.mk prop rental_yield net_roi in
  sr <- calculate_investment_score prop profile ;;
  Ok (Recommendation.mk prop_dict (fst sr) (snd sr)
        (PropDict.rental_yield prop_dict) (PropDict.net_roi prop_dict)).

(** The INSERT of one recommendation into the history table. *)
Definition history_row (profile : Profile.t) (rec : Recommendation.t) : History.row :=
  History.mk (Profile.id profile)
    (Property.id (PropDict.row (Recommendation.property rec)))
    (Recommendation.rental_yield rec)
    (Recommendation.net_roi rec)
    (Recommendation.score rec)
    (Recommendation.reasoning rec).

(** [# Get investor profile]: the profile to score against, or the error
    response the handler returns at once. *)
Definition resolve_profile (db : database) (data : Request.t)
  : Profile.t + response recommendations_body :=
  if truthy_int (Request.profile_id data) then
    match Request.profile_id data with
    | Some profile_id =>
        match select_profile db profile_id with
        | None => inr (Error 404 "Profile not found")
        | Some profile => inl profile
        end
    | None => inr (Error 400 "Profile ID or custom profile required")
    end
  else
    match Request.custom_profile data with
    | Some profile => inl profile
    | None => inr (Error 400 "Profile ID or custom profile required")
    end.

(** app.py, get_recommendations: the response (or the exception that escapes
    the handler) and the database afterwards.  The history rows are written
    after the sort and committed at the end; an exception or an error
    response leaves the database as it was. *)
Definition get_recommendations (db : database) (data : Request.t)
  : result (response recommendations_body) * database :=
  let top_n := match Request.top_n data with Some k => k | None => 5%Z end in
  match resolve_profile db data with
  | inr err => (Ok err, db)
  | inl profile =>
      match mapM (score_property profile) (properties db) with
      | Raise e => (Raise e, db)
      | Ok scored =>
          let recs := sort_by_score_desc scored in
          let top := py_slice_to recs top_n in
          (Ok (Success {| body_profile := profile;
                          body_recommendations := top;
                          total_analyzed := List.length recs |}),
           {| properties := properties db;
              investor_profiles := investor_profiles db;
              recommendations :=
                recommendations db ++ map (history_row profile) top |})
      end
  end.

(** An element of the list [properties] of compare_properties. *)
Module Comparison.
Record t : Type := mk {
  row : Property.t;
  rental_yield : Q;
  net_roi : Q;
  price_per_sqft : Q;
  maintenance_ratio : Q
}.
End Comparison.

(** The body of [if prop:] in the loop of compare_properties. *)
Definition compare_one (prop : Property.t) : result Comparison.t :=
  rental_yield <- calculate_rental_yield
                    (Property.annual_rental_income prop) (Property.price prop) ;;
  net_roi <- calculate_net_roi
               (Property.annual_rental_income prop)
               (Property.maintenance_cost prop) (Property.price prop) ;;
  price_per_sqft <- py_div (Property.price prop) (Property.size prop) ;;
  ratio <- py_div (Property.maintenance_cost prop)
             (Property.annual_rental_income prop) ;;
  Ok (Comparison.mk prop rental_yield net_roi price_per_sqft (ratio * 100)).

(** [for prop_id in property_ids]: an id that selects no row is skipped. *)
Fixpoint compare_loop (db : database) (property_ids : list Z)
  : result (list Comparison.t) :=
  match property_ids with
  | [] => Ok []
  | prop_id :: rest =>
      match select_property db prop_id with
      | Some prop =>
          c <- compare_one prop ;;
          cs <- compare_loop db rest ;;
          Ok (c :: cs)
      | None => compare_loop db rest
      end
  end.

(** app.py, compare_properties; [property_ids] is the list of the request,
    empty when the key is absent. *)
Definition compare_properties (db : database) (property_ids : list Z)
  : result (response (list Comparison.t)) :=
  match property_ids with
  | [] => Ok (Error 400 "Property IDs required")
  | _ :: _ =>
      cs <- compare_loop db property_ids ;;
      Ok (Success cs)
  end.

(** The database right after init_db. *)
Definition sample_db : database :=
  {| properties := sample_properties;
     investor_profiles := sample_profiles;
     recommendations := [] |}.

(** ** The handlers of the catalog and of the profiles *)

(** The values of an INSERT into properties: every column but the id. *)
Module NewProperty.
Record t : Type := mk {
  name : string;
  location : string;
  price : Q;
  size : Q;
  annual_rental_income : Q;
  maintenance_cost : Q;
  risk_level : string;
  property_type : string;
  year_built : option Z;
  description : option string
}.
End NewProperty.

(** The values of an INSERT into investor_profiles: every column but the id. *)
Module NewProfile.
Record t : Type := mk {
  name : string;
  budget_min : Q;
  budget_max : Q;
  risk_tolerance : string;
  investment_horizon : string;
  preferred_locations : option string;
  min_rental_yield : Q;
  min_roi : Q
}.
End NewProfile.

(** [id INTEGER PRIMARY KEY AUTOINCREMENT]: one more than the largest id the
    table has held.  The program deletes no row, so that is the largest id
    in the table, and 0 for an empty table. *)
Definition next_id (ids : list Z) : Z := (fold_right Z.max 0 ids + 1)%Z.

(** The id column of a stored profile (a row always has one). *)
Definition profile_key (p : Profile.t) : Z :=
  match Profile.id p with
  | Some i => i
  | None => 0%Z
  end.

(** [INSERT INTO properties (...) VALUES (...)] and [cursor.lastrowid] *)
Definition insert_property (db : database) (v : NewProperty.t) : Z * database :=
  let property_id := next_id (map Property.id (properties db)) in
  (property_id,
   {| properties :=
        properties db
        ++ [Property.mk property_id (NewProperty.name v) (NewProperty.location v)
              (NewProperty.price v) (NewProperty.size v)
              (NewProperty.annual_rental_income v) (NewProperty.maintenance_cost v)
              (NewProperty.risk_level v) (NewProperty.property_type v)
              (NewProperty.year_built v) (NewProperty.description v)];
      investor_profiles := investor_profiles db;
      recommendations := recommendations db |}).

(** [INSERT INTO investor_profiles (...) VALUES (...)] and [cursor.lastrowid] *)
Definition insert_profile (db : database) (v : NewProfile.t) : Z * database :=
  let profile_id := next_id (map profile_key (investor_profiles db)) in
  (profile_id,
   {| properties := properties db;
      investor_profiles :=
        investor_profiles db
        ++ [Profile.mk (Some profile_id) (NewProfile.name v)
              (NewProfile.budget_min v) (NewProfile.budget_max v)
              (NewProfile.risk_tolerance v) (NewProfile.investment_horizon v)
              (NewProfile.preferred_locations v)
              (NewProfile.min_rental_yield v) (NewProfile.min_roi v)];
      recommendations := recommendations db |}).

(** The tuples of [sample_properties] and [sample_profiles] in init_db: the
    seeded rows above without their ids. *)
Definition seed_properties : list NewProperty.t :=
  map (fun p => NewProperty.mk (Property.name p) (Property.location p)
                  (Property.price p) (Property.size p)
                  (Property.annual_rental_income p) (Property.maintenance_cost p)
                  (Property.risk_level p) (Property.property_type p)
                  (Property.year_built p) (Property.description p))
      sample_properties.

Definition seed_profiles : list NewProfile.t :=
  map (fun p => NewProfile.mk (Profile.name p) (Profile.budget_min p)
                  (Profile.budget_max p) (Profile.risk_tolerance p)
                  (Profile.investment_horizon p) (Profile.preferred_locations p)
                  (Profile.min_rental_yield p) (Profile.min_roi p))
      sample_profiles.

(** The database before init_db has run on it: three empty tables. *)
Definition empty_db : database :=
  {| properties := []; investor_profiles := []; recommendations := [] |}.

(** app.py, init_db: the tables exist in the model (CREATE TABLE IF NOT
    EXISTS changes none); each [executemany] runs when its [SELECT COUNT] is
    0. *)
Definition init_db (db : database) : database :=
  let db1 :=
    if (List.length (properties db) =? 0)%nat
    then fold_left (fun d v => snd (insert_property d v)) seed_properties db
    else db in
  if (List.length (investor_profiles db1) =? 0)%nat
  then fold_left (fun d v => snd (insert_profile d v)) seed_profiles db1
  else db1.

(** The dict with the two computed keys that the property handlers return. *)
Definition with_metrics (prop : Property.t) : result PropDict.t :=
  rental_yield <- calculate_rental_yield
                    (Property.annual_rental_income prop) (Property.price prop) ;;
  net_roi <- calculate_net_roi
               (Property.annual_rental_income prop)
               (Property.maintenance_cost prop) (Property.price prop) ;;
  Ok (PropDict.mk prop rental_yield net_roi).

(** [ORDER BY price]: ascending.  SQL leaves the order of rows with equal
    prices open; the model keeps them in table order. *)
Fixpoint insert_by_price (x : Property.t) (l : list Property.t) : list Property.t :=
  match l with
  | [] => [x]
  | y :: t =>
      if Qlt_bool (Property.price y) (Property.price x)
      then y :: insert_by_price x t
      else x :: y :: t
  end.

Definition order_by_price (l : list Property.t) : list Property.t :=
  fold_right insert_by_price [] l.

(** app.py, get_properties *)
Definition get_properties (db : database) : result (response (list PropDict.t)) :=
  result <- mapM with_metrics (order_by_price (properties db)) ;;
  Ok (Success result).


(** What the two POST handlers return: [jsonify({'id': id, 'message':
    message}), 201] or [jsonify({'error': message}), status]. *)
Inductive post_response : Type :=
| Created (id : Z) (message : string)
| Rejected (status : Z) (message : string).

(** The JSON body of POST /api/properties: a field is None when its key is
    absent. *)
Module PropertyForm.
Record t : Type := mk {
  name : option string;
  location : option string;
  price : option Q;
  size : option Q;
  annual_rental_income : option Q;
  maintenance_cost : option Q;
  risk_level : option string;
  property_type : option string;
  year_built : option Z;
  description : option string
}.
End PropertyForm.

(** [all(field in data for field in required_fields)] and the tuple of the
    INSERT; year_built and description are read with [data.get]. *)
Definition property_values (data : PropertyForm.t) : option NewProperty.t :=
  match PropertyForm.name data, PropertyForm.location data,
        PropertyForm.price data, PropertyForm.size data,
        PropertyForm.annual_rental_income data,
        PropertyForm.maintenance_cost data,
        PropertyForm.risk_level data, PropertyForm.property_type data with
  | Some name, Some location, Some price, Some size,
    Some annual_rental_income, Some maintenance_cost,
    Some risk_level, Some property_type =>
      Some (NewProperty.mk name location price size annual_rental_income
              maintenance_cost risk_level property_type
              (PropertyForm.year_built data) (PropertyForm.description data))
  | _, _, _, _, _, _, _, _ => None
  end.

(** app.py, add_property *)
Definition add_property (db : database) (data : PropertyForm.t)
  : post_response * database :=
  match property_values data with
  | None => (Rejected 400 "Missing required fields", db)
  | Some v =>
      let (property_id, db') := insert_property db v in
      (Created property_id "Property added successfully", db')
  end.

(** app.py, get_profiles *)
Definition get_profiles (db : database) : list Profile.t := investor_profiles db.

(** app.py, get_profile *)
Definition get_profile (db : database) (profile_id : Z) : response Profile.t :=
  match select_profile db profile_id with
  | None => Error 404 "Profile not found"
  | Some profile => Success profile
  end.

(** The JSON body of POST /api/investor-profiles: a field is None when its
    key is absent. *)
Module ProfileForm.
Record t : Type := mk {
  name : option string;
  budget_min : option Q;
  budget_max : option Q;
  risk_tolerance : option string;
  investment_horizon : option string;
  preferred_locations : option string;
  min_rental_yield : option Q;
  min_roi : option Q
}.
End ProfileForm.

(** The required fields and the tuple of the INSERT; preferred_locations is
    [data.get('preferred_locations', '')]. *)
Definition profile_values (data : ProfileForm.t) : option NewProfile.t :=
  match ProfileForm.name data, ProfileForm.budget_min data,
        ProfileForm.budget_max data, ProfileForm.risk_tolerance data,
        ProfileForm.investment_horizon data,
        ProfileForm.min_rental_yield data, ProfileForm.min_roi data with
  | Some name, Some budget_min, Some budget_max, Some risk_tolerance,
    Some investment_horizon, Some min_rental_yield, Some min_roi =>
      Some (NewProfile.mk name budget_min budget_max risk_tolerance
              investment_horizon
              (Some (match ProfileForm.preferred_locations data with
                     | Some s => s
                     | None => EmptyString
                     end))
              min_rental_yield min_roi)
  | _, _, _, _, _, _, _ => None
  end.

(** app.py, add_profile *)
Definition add_profile (db : database) (data : ProfileForm.t)
  : post_response * database :=
  match profile_values data with
  | None => (Rejected 400 "Missing required fields", db)
  | Some v =>
      let (profile_id, db') := insert_profile db v in
      (Created profile_id "Profile added successfully", db')
  end.

(** ** Vocabulary of the statements *)

(** The three risk categories of the data model. *)
Definition risk_levels : list string := ["Low"; "Medium"; "High"]%string.

(** [budget_min <= price <= budget_max] *)
Definition in_budget (property : Property.t) (profile : Profile.t) : Prop :=
  Profile.budget_min profile <= Property.price property /\
  Property.price property <= Profile.budget_max profile.

(** The metrics of a property as the specification writes them. *)
Definition rental_yield_of (property : Property.t) : Q :=
  Property.annual_rental_income property / Property.price property * 100.

Definition net_roi_of (property : Property.t) : Q :=
  (Property.annual_rental_income property - Property.maintenance_cost property)
  / Property.price property * 100.

(** The conservative profile with preferred_locations set to the given text. *)
Definition prefers (locations : option string) : Profile.t :=
  Profile.mk (Some 1%Z) "Conservative End-User" 200000 500000 "Low"
    "Long-term (10+ years)" locations 5 3.

(** A property that earns no rent, as POST /api/properties stores it. *)
Definition vacant_lot : Property.t :=
  sample_property 11 "Vacant Lot" "Emerging Neighborhood" 90000 4000 0 1200
    "High" "Land" 2000 "Undeveloped parcel without rental income".

Definition db_with_vacant_lot : database :=
  {| properties := sample_properties ++ [vacant_lot];
     investor_profiles := sample_profiles;
     recommendations := [] |}.

(** The request for a stored profile, with the given top_n. *)
Definition request_for (profile_id : Z) (top_n : option Z) : Request.t :=
  Request.mk (Some profile_id) None top_n.

(** An inline profile, as a client sends it under custom_profile. *)
Definition custom_investor : Profile.t :=
  Profile.mk None "Custom" 200000 500000 "Low" "Long-term (10+ years)" None 5 3.

(** The recommendations with score [s]. *)
Definition has_score (s : Q) (r : Recommendation.t) : bool :=
  Qeq_bool (Recommendation.score r) s.

(** Every element scores at least as much as every later one. *)
Definition sorted_desc (l : list Recommendation.t) : Prop :=
  StronglySorted
    (fun a b => Recommendation.score b <= Recommendation.score a) l.


(** What makes the loop body of get_recommendations return for a property. *)
Definition scorable (profile : Profile.t) (property : Property.t) : Prop :=
  In (Profile.risk_tolerance profile) risk_levels /\
  In (Property.risk_level property) risk_levels /\
  ~ Property.price property == 0 /\
  (Profile.budget_max profile < Property.price property ->
   ~ Profile.budget_max profile == 0).

(** [scorable], decided. *)
Definition scorableb (profile : Profile.t) (property : Property.t) : bool :=
  existsb (String.eqb (Profile.risk_tolerance profile)) risk_levels
  && existsb (String.eqb (Property.risk_level property)) risk_levels
  && negb (Qeq_bool (Property.price property) 0)
  && (negb (Qlt_bool (Profile.budget_max profile) (Property.price property))
      || negb (Qeq_bool (Profile.budget_max profile) 0)).

(** What makes the loop body of compare_properties return for a property. *)
Definition comparable (property : Property.t) : Prop :=
  ~ Property.price property == 0 /\
  ~ Property.size property == 0 /\
  ~ Property.annual_rental_income property == 0.

(** Ascending prices: every row costs at most what every later one does. *)
Definition sorted_by_price (l : list Property.t) : Prop :=
  StronglySorted (fun a b => Property.price a <= Property.price b) l.

(** What a line of reasoning is about. *)
Inductive topic : Type :=
| AboutPrice
| AboutRisk
| AboutYield
| AboutRoi
| AboutLocation.

Definition topic_of (r : reason) : topic :=
  match r with
  | PriceFits _ | PriceExceeds _ | PriceBelowMinimum => AboutPrice
  | RiskMatches _ | RiskPartial _ => AboutRisk
  | YieldExceeds _ _ | YieldBelow _ _ => AboutYield
  | RoiExceeds _ _ | RoiBelow _ _ => AboutRoi
  | LocationMatches => AboutLocation
  end.

(** A complete form for a plot of land, and one without its price. *)
Definition land_form : PropertyForm.t :=
  PropertyForm.mk (Some "Corner Plot"%string) (Some "Metro Center"%string)
    (Some 150000) (Some 900) (Some 9000) (Some 1500)
    (Some "Medium"%string) (Some "Land"%string) None None.

Definition land_form_without_price : PropertyForm.t :=
  PropertyForm.mk (Some "Corner Plot"%string) (Some "Metro Center"%string)
    None (Some 900) (Some 9000) (Some 1500)
    (Some "Medium"%string) (Some "Land"%string) None None.

(** A property whose risk level is none of the three categories. *)
Definition loft : Property.t :=
  Property.mk 12 "Loft" "Metro Center" 300000 800 24000 3000
    "Very High" "Loft" None None.

(** A property given away: its price is 0. *)
Definition free_property : Property.t :=
  Property.mk 11 "Gift" "Nowhere" 0 100 0 0 "Low" "Land" None None.

Definition db_with_free_property : database :=
  {| properties := sample_properties ++ [free_property];
     investor_profiles := sample_profiles;
     recommendations := [] |}.

(** A complete profile form that names no preferred location. *)
Definition newcomer_form : ProfileForm.t :=
  ProfileForm.mk (Some "Newcomer"%string) (Some 100000) (Some 300000)
    (Some "Medium"%string) (Some "Medium-term (5-10 years)"%string) None
    (Some 6) (Some 4).

(** The integers SQLite stores and sqlite3 binds as a query parameter. *)
Definition sqlite_int (z : Z) : Prop :=
  (-9223372036854775808 <= z <= 9223372036854775807)%Z.

(** The ASCII whitespace: tab, line feed, vertical tab, form feed, carriage
    return, the separators 28 to 31 and the space. *)
Definition whitespace : list ascii :=
  map ascii_of_nat [9; 10; 11; 12; 13; 28; 29; 30; 31; 32]%nat.

(** A text made of whitespace only; the empty text is one. *)
Definition blank (w : string) : Prop :=
  forallb (fun c => existsb (Ascii.eqb c) whitespace) (list_ascii_of_string w)
  = true.

(** A text of ASCII characters only. *)
Definition is_ascii (s : string) : Prop :=
  forallb (fun c => (nat_of_ascii c <? 128)%nat) (list_ascii_of_string s) = true.

(** * Properties *)

(** ** The error monad and Python arithmetic *)

Lemma bind_Ok_inv {A B : Type} (c : result A) (k : A -> result B) (b : B) :
  bind c k = Ok b -> exists a, c = Ok a /\ k a = Ok b.
Proof.
  destruct c as [a|e]; simpl; intros H; [exists a; auto | discriminate].
Qed.

Lemma Qlt_bool_iff (x y : Q) : Qlt_bool x y = true <-> x < y.
Proof.
  unfold Qlt_bool. rewrite negb_true_iff. split; intros H.
  - apply Qnot_le_lt. intros L. apply Qle_bool_iff in L. congruence.
  - destruct (Qle_bool y x) eqn:E; [|reflexivity].
    apply Qle_bool_iff in E. exfalso. apply (Qlt_not_le _ _ H E).
Qed.

Lemma Qlt_bool_false_iff (x y : Q) : Qlt_bool x y = false <-> y <= x.
Proof.
  unfold Qlt_bool. rewrite negb_false_iff. apply Qle_bool_iff.
Qed.

Lemma Qle_bool_false_iff (x y : Q) : Qle_bool x y = false <-> y < x.
Proof.
  rewrite <- Qlt_bool_iff. unfold Qlt_bool. now rewrite negb_true_iff.
Qed.

Lemma py_div_ok (a b : Q) : ~ b == 0 -> py_div a b = Ok (a / b).
Proof.
  intros H. unfold py_div. destruct (Qeq_bool b 0) eqn:E; [|reflexivity].
  apply Qeq_bool_iff in E. contradiction.
Qed.

Lemma py_div_zero (a b : Q) : b == 0 -> py_div a b = Raise ZeroDivisionError.
Proof.
  intros H. unfold py_div. apply Qeq_bool_iff in H. now rewrite H.
Qed.

Lemma py_div_Ok_inv (a b q : Q) : py_div a b = Ok q -> ~ b == 0 /\ q = a / b.
Proof.
  unfold py_div. destruct (Qeq_bool b 0) eqn:E; [discriminate|].
  intros H. injection H as <-. split; [|reflexivity].
  intros Z. apply Qeq_bool_iff in Z. congruence.
Qed.

Lemma py_max_spec (a b : Q) : py_max a b == Qmax a b.
Proof.
  unfold py_max. destruct (Qlt_bool a b) eqn:E.
  - apply Qlt_bool_iff in E. symmetry. apply Q.max_r. now apply Qlt_le_weak.
  - apply Qlt_bool_false_iff in E. symmetry. now apply Q.max_l.
Qed.

Lemma py_min_spec (a b : Q) : py_min a b == Qmin a b.
Proof.
  unfold py_min. destruct (Qlt_bool b a) eqn:E.
  - apply Qlt_bool_iff in E. symmetry. apply Q.min_r. now apply Qlt_le_weak.
  - apply Qlt_bool_false_iff in E. symmetry. now apply Q.min_l.
Qed.

Lemma py_max_lower (a b : Q) : a <= py_max a b.
Proof.
  unfold py_max. destruct (Qlt_bool a b) eqn:E.
  - apply Qlt_bool_iff in E. now apply Qlt_le_weak.
  - apply Qle_refl.
Qed.

Lemma py_min_upper (a b : Q) : py_min a b <= a.
Proof.
  unfold py_min. destruct (Qlt_bool b a) eqn:E.
  - apply Qlt_bool_iff in E. now apply Qlt_le_weak.
  - apply Qle_refl.
Qed.

Lemma py_min_glb (c a b : Q) : c <= a -> c <= b -> c <= py_min a b.
Proof.
  intros Ha Hb. unfold py_min. now destruct (Qlt_bool b a).
Qed.

(** A quotient by a positive number has the sign of its numerator. *)
Lemma Qdiv_neg_iff (a p : Q) : 0 < p -> (a / p * 100 < 0 <-> a < 0).
Proof.
  intros Hp. unfold Qdiv.
  assert (Hi : 0 < / p) by now apply Qinv_lt_0_compat.
  split; intros H; nra.
Qed.

Lemma Qdiv_nonneg (a p : Q) : 0 <= a -> 0 < p -> 0 <= a / p * 100.
Proof.
  intros Ha Hp. unfold Qdiv.
  assert (Hi : 0 < / p) by now apply Qinv_lt_0_compat.
  nra.
Qed.

Lemma Qpos_neq0 (p : Q) : 0 < p -> ~ p == 0.
Proof. intros H E. rewrite E in H. now apply Qlt_irrefl in H. Qed.

(** ** Metric calculator *)

(** C3: for price > 0 the calculators return annual_rental_income / price *
    100 and (annual_rental_income - maintenance_cost) / price * 100, and the
    net ROI is negative exactly when the maintenance cost exceeds the annual
    rental income. *)
Theorem metric_formulas (annual_rental_income maintenance_cost price : Q) :
  0 < price ->
  calculate_rental_yield annual_rental_income price
    = Ok (annual_rental_income / price * 100) /\
  exists net_roi,
    calculate_net_roi annual_rental_income maintenance_cost price = Ok net_roi /\
    net_roi == (annual_rental_income - maintenance_cost) / price * 100 /\
    (net_roi < 0 <-> annual_rental_income < maintenance_cost).
Proof.
  intros Hp. pose proof (Qpos_neq0 _ Hp) as Hn.
  unfold calculate_rental_yield, calculate_net_roi.
  rewrite !py_div_ok by assumption. simpl. split; [reflexivity|].
  eexists. split; [reflexivity|]. split; [reflexivity|].
  rewrite Qdiv_neg_iff by assumption. split; intros H; lra.
Qed.

(** The spec's example: price 450000, income 36000, maintenance 4500 give a
    rental yield of 8% and a net ROI of 7%. *)
Lemma metric_formulas_witness :
  0 < 450000 /\
  calculate_rental_yield 36000 450000 = Ok (36000 / 450000 * 100) /\
  36000 / 450000 * 100 == 8 /\
  exists net_roi,
    calculate_net_roi 36000 4500 450000 = Ok net_roi /\
    net_roi == (36000 - 4500) / 450000 * 100 /\
    (net_roi < 0 <-> 36000 < 4500).
Proof.
  assert (Hp : 0 < 450000) by reflexivity.
  destruct (metric_formulas 36000 4500 450000 Hp) as [Hy Hr].
  split; [exact Hp|]. split; [exact Hy|]. split; [reflexivity|exact Hr].
Defined.

(** Without the hypothesis the calculators raise: a zero price is a division
    by zero. *)
Lemma metrics_raise_on_zero_price (annual_rental_income maintenance_cost price : Q) :
  price == 0 ->
  calculate_rental_yield annual_rental_income price = Raise ZeroDivisionError /\
  calculate_net_roi annual_rental_income maintenance_cost price
    = Raise ZeroDivisionError.
Proof.
  intros H. unfold calculate_rental_yield, calculate_net_roi.
  now rewrite !py_div_zero by assumption.
Qed.

(** ** Score model: the sections *)

(** The locals of a returning run are the values of the five sections. *)
Lemma score_locals_sections (property : Property.t) (profile : Profile.t) (l : locals) :
  score_locals property profile = Ok l ->
  exists p r y n,
    price_section property profile = Ok p /\
    risk_section property profile = Ok r /\
    yield_section property profile = Ok y /\
    roi_section property profile = Ok n /\
    price_fit l = fst p /\ risk_score l = fst r /\ yield_score l = fst y /\
    roi_score l = fst n /\
    location_bonus l = fst (location_section property profile) /\
    score l = 0 + fst p + fst r + fst y + fst n
              + fst (location_section property profile) /\
    reasoning_parts l
      = [snd p; snd r; snd y; snd n] ++ snd (location_section property profile).
Proof.
  unfold score_locals. intros H.
  apply bind_Ok_inv in H as (p & Hp & H).
  apply bind_Ok_inv in H as (r & Hr & H).
  apply bind_Ok_inv in H as (y & Hy & H).
  apply bind_Ok_inv in H as (n & Hn & H).
  injection H as <-. exists p, r, y, n. simpl. repeat split; assumption.
Qed.

Lemma score_locals_complete (property : Property.t) (profile : Profile.t) p r y n :
  price_section property profile = Ok p ->
  risk_section property profile = Ok r ->
  yield_section property profile = Ok y ->
  roi_section property profile = Ok n ->
  exists l, score_locals property profile = Ok l.
Proof.
  intros Hp Hr Hy Hn. unfold score_locals. rewrite Hp, Hr, Hy, Hn. simpl.
  eexists. reflexivity.
Qed.

(** C5: the risk-alignment component is the fixed table: 20 on the diagonal;
    Low tolerance against Medium 10 and against High 5; Medium tolerance
    against Low 15 and against High 15; High tolerance against Low 10 and
    against Medium 15. *)
Theorem risk_alignment_table (property : Property.t) (profile : Profile.t) :
  let tol := Profile.risk_tolerance profile in
  let lvl := Property.risk_level property in
  let scores v := exists why, risk_section property profile = Ok (v, why) in
  (In tol risk_levels -> tol = lvl -> scores 20) /\
  (tol = "Low"%string -> lvl = "Medium"%string -> scores 10) /\
  (tol = "Low"%string -> lvl = "High"%string -> scores 5) /\
  (tol = "Medium"%string -> lvl = "Low"%string -> scores 15) /\
  (tol = "Medium"%string -> lvl = "High"%string -> scores 15) /\
  (tol = "High"%string -> lvl = "Low"%string -> scores 10) /\
  (tol = "High"%string -> lvl = "Medium"%string -> scores 15).
Proof.
  cbv zeta. unfold risk_section.
  repeat split.
  - intros Hin <-. simpl in Hin.
    destruct Hin as [<-|[<-|[<-|[]]]]; simpl; eexists; reflexivity.
  - intros -> ->. simpl. eexists. reflexivity.
  - intros -> ->. simpl. eexists. reflexivity.
  - intros -> ->. simpl. eexists. reflexivity.
  - intros -> ->. simpl. eexists. reflexivity.
  - intros -> ->. simpl. eexists. reflexivity.
  - intros -> ->. simpl. eexists. reflexivity.
Qed.

(** The table at the seeded rows: the conservative profile (Low) against the
    downtown apartment (Low) scores 20, against the beachfront condo (Medium)
    10. *)
Lemma risk_alignment_table_witness :
  (exists why, risk_section downtown_apartment conservative = Ok (20, why)) /\
  (exists why, risk_section (nth 2 sample_properties downtown_apartment) conservative
               = Ok (10, why)).
Proof.
  split.
  - refine (proj1 (risk_alignment_table downtown_apartment conservative) _ _).
    + simpl. auto.
    + reflexivity.
  - refine (proj1 (proj2 (risk_alignment_table
                            (nth 2 sample_properties downtown_apartment)
                            conservative)) _ _); reflexivity.
Defined.

(** A category outside the table is a KeyError. *)
Lemma risk_section_unknown_tolerance (property : Property.t) (profile : Profile.t) :
  ~ In (Profile.risk_tolerance profile) risk_levels ->
  risk_section property profile = Raise (KeyError (Profile.risk_tolerance profile)).
Proof.
  intros H. unfold risk_section, risk_match. cbn [dict_get].
  destruct (String.eqb_spec "Low" (Profile.risk_tolerance profile)) as [E|_];
    [exfalso; apply H; rewrite <- E; simpl; auto|].
  destruct (String.eqb_spec "Medium" (Profile.risk_tolerance profile)) as [E|_];
    [exfalso; apply H; rewrite <- E; simpl; auto|].
  destruct (String.eqb_spec "High" (Profile.risk_tolerance profile)) as [E|_];
    [exfalso; apply H; rewrite <- E; simpl; auto|].
  reflexivity.
Qed.

Lemma risk_section_total (property : Property.t) (profile : Profile.t) :
  In (Profile.risk_tolerance profile) risk_levels ->
  In (Property.risk_level property) risk_levels ->
  exists v why, risk_section property profile = Ok (v, why).
Proof.
  unfold risk_section. simpl. intros Ht Hl.
  destruct Ht as [<-|[<-|[<-|[]]]]; destruct Hl as [<-|[<-|[<-|[]]]];
    simpl; eexists; eexists; reflexivity.
Qed.

Lemma risk_section_bounds (property : Property.t) (profile : Profile.t) v why :
  risk_section property profile = Ok (v, why) -> 5 <= v /\ v <= 20.
Proof.
  unfold risk_section, risk_match. cbn [dict_get].
  destruct (String.eqb _ (Profile.risk_tolerance profile)); cbn [bind dict_get];
    [|destruct (String.eqb _ (Profile.risk_tolerance profile)); cbn [bind dict_get];
      [|destruct (String.eqb _ (Profile.risk_tolerance profile)); cbn [bind dict_get];
        [|discriminate]]];
    (destruct (String.eqb _ (Property.risk_level property)); cbn [bind dict_get];
     [|destruct (String.eqb _ (Property.risk_level property)); cbn [bind dict_get];
       [|destruct (String.eqb _ (Property.risk_level property)); cbn [bind dict_get];
         [|discriminate]]]);
    intros H; injection H as <- _; split; discriminate.
Qed.

(** C6: for price > 0 the yield component is min(30, 20 + (rentalYield -
    min_rental_yield) * 2) when rentalYield >= min_rental_yield and max(0, 20
    - (min_rental_yield - rentalYield) * 3) otherwise; the ROI component is
    min(25, 15 + (netRoi - min_roi) * 2) when netRoi >= min_roi and max(0, 15
    - (min_roi - netRoi) * 3) otherwise. *)
Theorem performance_components (property : Property.t) (profile : Profile.t) :
  0 < Property.price property ->
  let rental_yield := rental_yield_of property in
  let net_roi := net_roi_of property in
  let min_rental_yield := Profile.min_rental_yield profile in
  let min_roi := Profile.min_roi profile in
  exists yield_score yield_why roi_score roi_why,
    yield_section property profile = Ok (yield_score, yield_why) /\
    roi_section property profile = Ok (roi_score, roi_why) /\
    (min_rental_yield <= rental_yield ->
     yield_score == Qmin 30 (20 + (rental_yield - min_rental_yield) * 2)) /\
    (rental_yield < min_rental_yield ->
     yield_score == Qmax 0 (20 - (min_rental_yield - rental_yield) * 3)) /\
    (min_roi <= net_roi ->
     roi_score == Qmin 25 (15 + (net_roi - min_roi) * 2)) /\
    (net_roi < min_roi ->
     roi_score == Qmax 0 (15 - (min_roi - net_roi) * 3)).
Proof.
  intros Hp. cbv zeta. pose proof (Qpos_neq0 _ Hp) as Hn.
  unfold yield_section, roi_section, calculate_rental_yield, calculate_net_roi.
  rewrite !py_div_ok by assumption. cbn [bind].
  fold (rental_yield_of property). fold (net_roi_of property).
  destruct (Qle_bool (Profile.min_rental_yield profile) (rental_yield_of property))
    eqn:Ey;
  destruct (Qle_bool (Profile.min_roi profile) (net_roi_of property)) eqn:Er;
  do 4 eexists; (split; [reflexivity|]); (split; [reflexivity|]);
  try (apply Qle_bool_iff in Ey); try (apply Qle_bool_false_iff in Ey);
  try (apply Qle_bool_iff in Er); try (apply Qle_bool_false_iff in Er);
  repeat split; intros H;
  first [apply py_min_spec | apply py_max_spec | lra].
Qed.

(** The downtown apartment against the conservative profile: yield 8 against
    a minimum of 5 scores 26, ROI 7 against a minimum of 3 scores 23. *)
Lemma performance_components_witness :
  0 < Property.price downtown_apartment /\
  exists yield_score yield_why roi_score roi_why,
    yield_section downtown_apartment conservative = Ok (yield_score, yield_why) /\
    roi_section downtown_apartment conservative = Ok (roi_score, roi_why) /\
    yield_score == 26 /\ roi_score == 23.
Proof.
  assert (Hp : 0 < Property.price downtown_apartment) by reflexivity.
  split; [exact Hp|].
  destruct (performance_components downtown_apartment conservative Hp)
    as (ys & yw & rs & rw & Hy & Hr & Hy1 & _ & Hr1 & _).
  exists ys, yw, rs, rw. split; [exact Hy|]. split; [exact Hr|]. split.
  - rewrite Hy1 by (vm_compute; discriminate). reflexivity.
  - rewrite Hr1 by (vm_compute; discriminate). reflexivity.
Defined.

Lemma yield_section_bounds (property : Property.t) (profile : Profile.t) v why :
  yield_section property profile = Ok (v, why) -> 0 <= v /\ v <= 30.
Proof.
  unfold yield_section. intros H.
  apply bind_Ok_inv in H as (ry & _ & H).
  destruct (Qle_bool (Profile.min_rental_yield profile) ry) eqn:E;
    injection H as <- _.
  - apply Qle_bool_iff in E. split; [|apply py_min_upper].
    apply py_min_glb; lra.
  - apply Qle_bool_false_iff in E. split; [apply py_max_lower|].
    unfold py_max. destruct (Qlt_bool 0 _); lra.
Qed.

Lemma roi_section_bounds (property : Property.t) (profile : Profile.t) v why :
  roi_section property profile = Ok (v, why) -> 0 <= v /\ v <= 25.
Proof.
  unfold roi_section. intros H.
  apply bind_Ok_inv in H as (roi & _ & H).
  destruct (Qle_bool (Profile.min_roi profile) roi) eqn:E;
    injection H as <- _.
  - apply Qle_bool_iff in E. split; [|apply py_min_upper].
    apply py_min_glb; lra.
  - apply Qle_bool_false_iff in E. split; [apply py_max_lower|].
    unfold py_max. destruct (Qlt_bool 0 _); lra.
Qed.

Lemma performance_sections_total (property : Property.t) (profile : Profile.t) :
  ~ Property.price property == 0 ->
  (exists y, yield_section property profile = Ok y) /\
  (exists n, roi_section property profile = Ok n).
Proof.
  intros Hn.
  unfold yield_section, roi_section, calculate_rental_yield, calculate_net_roi.
  rewrite !py_div_ok by assumption. cbn [bind].
  split.
  - destruct (Qle_bool _ _); eexists; reflexivity.
  - destruct (Qle_bool _ _); eexists; reflexivity.
Qed.

Lemma Qdiv_eq_1 (a b : Q) : ~ b == 0 -> a / b == 1 -> a == b.
Proof.
  intros Hb H.
  assert (E : a == a / b * b) by (field; exact Hb).
  rewrite E, H. ring.
Qed.

Lemma price_section_in_budget (property : Property.t) (profile : Profile.t) :
  in_budget property profile ->
  price_section property profile = Ok (25, PriceFits (Property.price property)).
Proof.
  intros [H1 H2]. unfold price_section.
  apply Qle_bool_iff in H1, H2. now rewrite H1, H2.
Qed.

Lemma price_section_over (property : Property.t) (profile : Profile.t) :
  Profile.budget_max profile < Property.price property ->
  ~ Profile.budget_max profile == 0 ->
  price_section property profile
  = Ok (py_max 0 (25 - (Property.price property / Profile.budget_max profile - 1) * 50),
        PriceExceeds
          ((Property.price property / Profile.budget_max profile - 1) * 100)).
Proof.
  intros Hlt Hn. unfold price_section.
  assert (E : Qle_bool (Property.price property) (Profile.budget_max profile) = false)
    by now apply Qle_bool_false_iff.
  rewrite E, andb_false_r.
  apply Qlt_bool_iff in Hlt. rewrite Hlt.
  rewrite !py_div_ok by assumption. reflexivity.
Qed.

Lemma price_section_under (property : Property.t) (profile : Profile.t) :
  Property.price property < Profile.budget_min profile ->
  Property.price property <= Profile.budget_max profile ->
  ~ Property.price property == 0 ->
  price_section property profile
  = Ok (py_max 0 (25 - (Profile.budget_min profile / Property.price property - 1) * 50),
        PriceBelowMinimum).
Proof.
  intros Hlt Hle Hn. unfold price_section.
  assert (E : Qle_bool (Profile.budget_min profile) (Property.price property) = false)
    by now apply Qle_bool_false_iff.
  rewrite E, andb_false_l.
  apply Qlt_bool_false_iff in Hle. rewrite Hle.
  rewrite !py_div_ok by assumption. reflexivity.
Qed.

(** The price section raises exactly on a zero divisor of its ratio. *)
Lemma price_section_zero_budget_max (property : Property.t) (profile : Profile.t) :
  Profile.budget_max profile < Property.price property ->
  Profile.budget_max profile == 0 ->
  price_section property profile = Raise ZeroDivisionError.
Proof.
  intros Hlt Hz. unfold price_section.
  assert (E : Qle_bool (Property.price property) (Profile.budget_max profile) = false)
    by now apply Qle_bool_false_iff.
  rewrite E, andb_false_r.
  apply Qlt_bool_iff in Hlt. rewrite Hlt.
  now rewrite py_div_zero by assumption.
Qed.

Lemma price_section_cases (property : Property.t) (profile : Profile.t) v why :
  price_section property profile = Ok (v, why) ->
  (in_budget property profile /\ v = 25) \/
  (Profile.budget_max profile < Property.price property /\
   ~ Profile.budget_max profile == 0 /\
   v = py_max 0 (25 - (Property.price property / Profile.budget_max profile - 1) * 50)) \/
  (Property.price property < Profile.budget_min profile /\
   Property.price property <= Profile.budget_max profile /\
   ~ Property.price property == 0 /\
   v = py_max 0 (25 - (Profile.budget_min profile / Property.price property - 1) * 50)).
Proof.
  unfold price_section.
  destruct (Qle_bool (Profile.budget_min profile) (Property.price property)) eqn:E1;
  destruct (Qle_bool (Property.price property) (Profile.budget_max profile)) eqn:E2;
  cbn [andb].
  - intros H. injection H as <- _. left.
    apply Qle_bool_iff in E1, E2. split; [split|]; auto.
  - apply Qle_bool_false_iff in E2. pose proof E2 as E2'.
    apply Qlt_bool_iff in E2'. rewrite E2'. intros H.
    apply bind_Ok_inv in H as (r & Hr & H).
    apply py_div_Ok_inv in Hr as [Hn ->].
    apply bind_Ok_inv in H as (q & _ & H). injection H as <- _.
    right. left. auto.
  - apply Qle_bool_false_iff in E1. pose proof E2 as E2'.
    apply Qle_bool_iff in E2'. apply Qlt_bool_false_iff in E2'. rewrite E2'.
    apply Qle_bool_iff in E2. intros H.
    apply bind_Ok_inv in H as (r & Hr & H).
    apply py_div_Ok_inv in Hr as [Hn ->]. injection H as <- _.
    right. right. auto.
  - apply Qle_bool_false_iff in E2. pose proof E2 as E2'.
    apply Qlt_bool_iff in E2'. rewrite E2'. intros H.
    apply bind_Ok_inv in H as (r & Hr & H).
    apply py_div_Ok_inv in Hr as [Hn ->].
    apply bind_Ok_inv in H as (q & _ & H). injection H as <- _.
    right. left. auto.
Qed.

Lemma py_max0_eq_25 (x : Q) : py_max 0 (25 - (x - 1) * 50) == 25 -> x == 1.
Proof.
  unfold py_max. destruct (Qlt_bool 0 _); intros H; lra.
Qed.

(** C4: the price-fit component is 25 exactly when budget_min <= price <=
    budget_max, and otherwise max(0, 25 - (r - 1) * 50), with r = price /
    budget_max when the price is above budget_max and r = budget_min / price
    when it is below budget_min.  The two quotients exist when their divisor
    is not zero, which is when the section returns. *)
Theorem price_fit_component (property : Property.t) (profile : Profile.t) :
  let price := Property.price property in
  let budget_min := Profile.budget_min profile in
  let budget_max := Profile.budget_max profile in
  (in_budget property profile ->
   exists why, price_section property profile = Ok (25, why)) /\
  (forall v why, price_section property profile = Ok (v, why) ->
     (v == 25 <-> in_budget property profile)) /\
  (budget_max < price -> ~ budget_max == 0 ->
   exists v why, price_section property profile = Ok (v, why) /\
     v == Qmax 0 (25 - (price / budget_max - 1) * 50)) /\
  (price < budget_min -> price <= budget_max -> ~ price == 0 ->
   exists v why, price_section property profile = Ok (v, why) /\
     v == Qmax 0 (25 - (budget_min / price - 1) * 50)).
Proof.
  cbv zeta. split; [|split; [|split]].
  - intros H. eexists. now apply price_section_in_budget.
  - intros v why H. split.
    + intros E. apply price_section_cases in H
        as [[Hin _]|[(Hlt & Hn & ->)|(Hlt & Hle & Hn & ->)]].
      * exact Hin.
      * apply py_max0_eq_25, Qdiv_eq_1 in E; [|assumption]. lra.
      * apply py_max0_eq_25, Qdiv_eq_1 in E; [|assumption]. lra.
    + intros Hin. rewrite (price_section_in_budget _ _ Hin) in H.
      injection H as <- _. reflexivity.
  - intros Hlt Hn. rewrite price_section_over by assumption.
    do 2 eexists. split; [reflexivity|apply py_max_spec].
  - intros Hlt Hle Hn. rewrite price_section_under by assumption.
    do 2 eexists. split; [reflexivity|apply py_max_spec].
Qed.

(** The three cases at the seeded rows, against the conservative profile
    (budget 200000 to 500000): the downtown apartment (450000) is in budget,
    the luxury villa (1200000) is above it with r = 2.4, the urban studio
    (180000) below it with r = 10/9. *)
Lemma price_fit_component_witness :
  (exists why, price_section downtown_apartment conservative = Ok (25, why)) /\
  (exists v why,
     price_section (nth 6 sample_properties downtown_apartment) conservative
     = Ok (v, why) /\ v == 0) /\
  (exists v why,
     price_section (nth 3 sample_properties downtown_apartment) conservative
     = Ok (v, why) /\ v == 175 # 9).
Proof.
  split; [|split].
  - refine (proj1 (price_fit_component downtown_apartment conservative) _).
    split; vm_compute; discriminate.
  - destruct (proj1 (proj2 (proj2 (price_fit_component
                (nth 6 sample_properties downtown_apartment) conservative))))
      as (v & why & H & E).
    + reflexivity.
    + vm_compute. discriminate.
    + exists v, why. split; [exact H|]. rewrite E. reflexivity.
  - destruct (proj2 (proj2 (proj2 (price_fit_component
                (nth 3 sample_properties downtown_apartment) conservative))))
      as (v & why & H & E).
    + reflexivity.
    + vm_compute. discriminate.
    + vm_compute. discriminate.
    + exists v, why. split; [exact H|]. rewrite E. reflexivity.
Defined.

Lemma price_section_nonneg (property : Property.t) (profile : Profile.t) v why :
  price_section property profile = Ok (v, why) -> 0 <= v.
Proof.
  intros H. apply price_section_cases in H
    as [[_ ->]|[(_ & _ & ->)|(_ & _ & _ & ->)]];
    [discriminate | apply py_max_lower | apply py_max_lower].
Qed.

Lemma location_section_values (property : Property.t) (profile : Profile.t) :
  location_section property profile = (0, []) \/
  location_section property profile = (10, [LocationMatches]).
Proof.
  unfold location_section.
  destruct (truthy_str _); [|now left].
  destruct (Profile.preferred_locations profile); [|now left].
  destruct (existsb _ _); [now right|now left].
Qed.

(** ** Score model: the total *)

(** C1: with both risk categories in Low, Medium, High and price > 0, the
    score the function returns lies in [0, 100]: it is min(100, sum of the
    five components), and each component is non-negative.  The function
    returns a score whenever the price section can form its ratio. *)
Theorem score_in_range (property : Property.t) (profile : Profile.t) :
  In (Profile.risk_tolerance profile) risk_levels ->
  In (Property.risk_level property) risk_levels ->
  0 < Property.price property ->
  (forall s why,
     calculate_investment_score property profile = Ok (s, why) ->
     0 <= s /\ s <= 100 /\
     exists l,
       score_locals property profile = Ok l /\
       s == Qmin 100 (price_fit l + risk_score l + yield_score l
                      + roi_score l + location_bonus l) /\
       0 <= price_fit l /\ 0 <= risk_score l /\ 0 <= yield_score l /\
       0 <= roi_score l /\ 0 <= location_bonus l) /\
  (~ Profile.budget_max profile == 0 \/
     Property.price property <= Profile.budget_max profile ->
   exists s why, calculate_investment_score property profile = Ok (s, why)).
Proof.
  intros Ht Hl Hp. split.
  - intros s why H. unfold calculate_investment_score in H.
    apply bind_Ok_inv in H as (l & Hloc & H). injection H as <- <-.
    destruct (score_locals_sections _ _ _ Hloc)
      as ([pf pw] & [rs rw] & [ys yw] & [ns nw] & Hps & Hrs & Hys & Hns
          & Epf & Ers & Eys & Ens & Elb & Esc & _).
    cbn [fst] in *.
    apply price_section_nonneg in Hps.
    apply risk_section_bounds in Hrs as [Hrs _].
    apply yield_section_bounds in Hys as [Hys _].
    apply roi_section_bounds in Hns as [Hns _].
    assert (Hlb : 0 <= location_bonus l).
    { rewrite Elb.
      destruct (location_section_values property profile) as [-> | ->];
        cbn [fst]; discriminate. }
    rewrite <- Epf in Hps. rewrite <- Ers in Hrs. rewrite <- Eys in Hys.
    rewrite <- Ens in Hns.
    assert (Hsum : score l == price_fit l + risk_score l + yield_score l
                              + roi_score l + location_bonus l).
    { rewrite Esc, <- Epf, <- Ers, <- Eys, <- Ens, <- Elb. ring. }
    split; [|split].
    + apply py_min_glb; [discriminate | rewrite Hsum; lra].
    + apply py_min_upper.
    + exists l. split; [exact Hloc|]. split.
      * rewrite py_min_spec, Hsum. reflexivity.
      * repeat (split; [lra|]). lra.
  - intros Hb.
    assert (Hn : ~ Property.price property == 0) by now apply Qpos_neq0.
    assert (Hps : exists p, price_section property profile = Ok p).
    { destruct (Qlt_le_dec (Profile.budget_max profile) (Property.price property))
        as [Hover|Hle].
      - destruct Hb as [Hb|Hb]; [|lra].
        eexists. now apply price_section_over.
      - destruct (Qlt_le_dec (Property.price property) (Profile.budget_min profile))
          as [Hunder|Hge].
        + eexists. now apply price_section_under.
        + eexists. apply price_section_in_budget. now split. }
    destruct Hps as [p Hps].
    destruct (risk_section_total property profile Ht Hl) as (v & w & Hrs).
    destruct (performance_sections_total property profile Hn) as [[y Hys] [n Hns]].
    destruct (score_locals_complete _ _ _ _ _ _ Hps Hrs Hys Hns) as [l Hloc].
    unfold calculate_investment_score. rewrite Hloc. cbn [bind].
    do 2 eexists. reflexivity.
Qed.

(** The spec's example: the downtown apartment against the conservative
    profile scores 25 + 20 + 26 + 23 + 0 = 94. *)
Lemma score_in_range_witness :
  exists s why,
    calculate_investment_score downtown_apartment conservative = Ok (s, why) /\
    s == 94 /\ 0 <= s /\ s <= 100.
Proof.
  assert (Ht : In (Profile.risk_tolerance conservative) risk_levels)
    by (simpl; auto).
  assert (Hl : In (Property.risk_level downtown_apartment) risk_levels)
    by (simpl; auto).
  assert (Hp : 0 < Property.price downtown_apartment) by reflexivity.
  destruct (score_in_range downtown_apartment conservative Ht Hl Hp) as [Hr Hx].
  destruct Hx as (s & why & H).
  - right. vm_compute. discriminate.
  - exists s, why. split; [exact H|].
    destruct (Hr s why H) as (H0 & H100 & _).
    split; [|split; assumption].
    revert H. vm_compute. intros H. injection H as <- _. reflexivity.
Defined.

(** Outside the second part's condition no score is returned: a zero
    budget_max below the price is a division by zero. *)
Lemma score_raises_on_zero_budget_max (property : Property.t) (profile : Profile.t) :
  Profile.budget_max profile == 0 ->
  0 < Property.price property ->
  calculate_investment_score property profile = Raise ZeroDivisionError.
Proof.
  intros Hz Hp. unfold calculate_investment_score, score_locals.
  rewrite price_section_zero_budget_max; [reflexivity| |assumption].
  rewrite Hz. exact Hp.
Qed.

(** ** Score model: the location bonus *)

Lemma prefix_empty (s : string) : String.prefix "" s = true.
Proof. now destruct s. Qed.

Lemma str_in_empty (s : string) : str_in "" s = true.
Proof. destruct s; cbn [str_in]; now rewrite prefix_empty. Qed.

Lemma truthy_str_false_iff (s : option string) :
  truthy_str s = false <-> s = None \/ s = Some ""%string.
Proof.
  destruct s as [[|c t]|]; simpl; split; intros H; auto; try discriminate.
  destruct H as [H|H]; discriminate.
Qed.

Lemma empty_term_gives_bonus (property : Property.t) (profile : Profile.t) s :
  Profile.preferred_locations profile = Some s ->
  s <> ""%string ->
  In ""%string (preferred_locs s) ->
  location_section property profile = (10, [LocationMatches]).
Proof.
  intros Hs Hne Hin. unfold location_section. rewrite Hs.
  destruct s as [|c t]; [contradiction|]. cbn [truthy_str].
  replace (existsb _ _) with true; [reflexivity|].
  symmetry. apply existsb_exists. exists ""%string.
  split; [exact Hin | apply str_in_empty].
Qed.

Lemma append_empty_r (s : string) : (s ++ "")%string = s.
Proof. induction s as [|c t IH]; cbn [String.append]; congruence. Qed.

Lemma append_assoc3 (a b c : string) :
  ((a ++ b) ++ c)%string = (a ++ (b ++ c))%string.
Proof. induction a as [|x t IH]; cbn [String.append]; congruence. Qed.

(** *** Splitting on commas and stripping, on the text itself *)

Lemma split_comma_nonempty (s : string) : split_comma s <> [].
Proof.
  destruct s as [|c t]; cbn [split_comma]; [discriminate|].
  destruct (Ascii.eqb c ","%char); [discriminate|].
  destruct (split_comma t); discriminate.
Qed.

(** The fields of a text with a comma in it are the fields before the comma
    followed by the fields after it. *)
Lemma split_comma_append (a b : string) :
  split_comma (a ++ String ","%char b) = split_comma a ++ split_comma b.
Proof.
  induction a as [|c t IH]; cbn [String.append split_comma].
  - reflexivity.
  - rewrite IH. destruct (Ascii.eqb c ","%char); [reflexivity|].
    destruct (split_comma t) eqn:E; [|reflexivity].
    now apply split_comma_nonempty in E.
Qed.

Lemma whitespace_char (c : ascii) :
  existsb (Ascii.eqb c) whitespace = true ->
  is_space c = true /\ Ascii.eqb c ","%char = false.
Proof.
  destruct c as [[] [] [] [] [] [] [] []]; intros H;
    first [discriminate H | split; reflexivity].
Qed.

Lemma blank_cons (c : ascii) (w : string) :
  blank (String c w) <-> existsb (Ascii.eqb c) whitespace = true /\ blank w.
Proof.
  unfold blank. cbn [list_ascii_of_string forallb]. apply andb_true_iff.
Qed.

(** A blank text is one field, and stripping leaves nothing of it. *)
Lemma blank_field (w : string) : blank w -> split_comma w = [w].
Proof.
  induction w as [|c t IH]; intros H; cbn [split_comma]; [reflexivity|].
  apply blank_cons in H as [Hc Ht]. apply whitespace_char in Hc as [_ Hc].
  now rewrite Hc, (IH Ht).
Qed.

Lemma blank_strip (w : string) : blank w -> strip w = ""%string.
Proof.
  intros H. unfold strip.
  assert (E : lstrip w = ""%string).
  { induction w as [|c t IH]; cbn [lstrip]; [reflexivity|].
    apply blank_cons in H as [Hc Ht]. apply whitespace_char in Hc as [Hc _].
    rewrite Hc. now apply IH. }
  now rewrite E.
Qed.

(** A blank stretch of the text between two commas, or between a comma and
    an end of the text, or the whole text, is one of its fields. *)
Lemma blank_stretch_is_field (before w after : string) :
  blank w ->
  before = ""%string \/ (exists b, before = (b ++ ",")%string) ->
  after = ""%string \/ (exists a, after = String ","%char a) ->
  In w (split_comma (before ++ (w ++ after))).
Proof.
  intros Hw Hb Ha.
  assert (Hright : In w (split_comma (w ++ after))).
  { destruct Ha as [->|[a ->]].
    - rewrite append_empty_r, blank_field by assumption. now left.
    - rewrite split_comma_append, blank_field by assumption. now left. }
  destruct Hb as [->|[b ->]]; [exact Hright|].
  rewrite append_assoc3. cbn [String.append].
  rewrite split_comma_append. apply in_or_app. now right.
Qed.

Lemma lower_append (a b : string) :
  lower (a ++ b) = (lower a ++ lower b)%string.
Proof. induction a as [|c t IH]; cbn [String.append lower]; congruence. Qed.

Lemma lstrip_is_suffix (x : string) : exists a, x = (a ++ lstrip x)%string.
Proof.
  induction x as [|c t [a IH]]; cbn [lstrip].
  - now exists ""%string.
  - destruct (is_space c).
    + exists (String c a). cbn [String.append]. congruence.
    + now exists ""%string.
Qed.

Lemma rstrip_is_prefix (x : string) : exists b, x = (rstrip x ++ b)%string.
Proof.
  induction x as [|c t [b IH]]; cbn [rstrip].
  - now exists ""%string.
  - destruct (rstrip t) as [|d u].
    + destruct (is_space c).
      * now exists (String c t).
      * now exists t.
    + exists b. cbn [String.append] in *. congruence.
Qed.

Lemma strip_is_substring (x : string) :
  exists a b, x = (a ++ (strip x ++ b))%string.
Proof.
  unfold strip. destruct (lstrip_is_suffix x) as [a Ha].
  destruct (rstrip_is_prefix (lstrip x)) as [b Hb].
  exists a, b. now rewrite <- Hb.
Qed.

Lemma split_comma_head (s : string) :
  exists f tl r, split_comma s = f :: tl /\ s = (f ++ r)%string.
Proof.
  induction s as [|c t (f & tl & r & E & Ht)]; cbn [split_comma].
  - now exists ""%string, [], ""%string.
  - destruct (Ascii.eqb c ","%char).
    + now exists ""%string, (split_comma t), (String c t).
    + rewrite E. exists (String c f), tl, r. cbn [String.append].
      split; congruence.
Qed.

Lemma prefix_append (m b : string) : String.prefix m (m ++ b) = true.
Proof.
  induction m as [|c t IH]; cbn [String.append String.prefix].
  - apply prefix_empty.
  - destruct (ascii_dec c c); [exact IH|contradiction].
Qed.

Lemma str_in_append (a m b : string) : str_in m (a ++ (m ++ b)) = true.
Proof.
  induction a as [|c t IH]; cbn [String.append].
  - destruct (m ++ b)%string eqn:E; cbn [str_in]; rewrite <- ?E;
      now rewrite prefix_append.
  - cbn [str_in]. rewrite IH. apply orb_true_r.
Qed.

(** A property located at the preferred text itself matches its first term. *)
Lemma own_text_matches (s : string) :
  existsb (fun pref => str_in pref (lower s)) (preferred_locs s) = true.
Proof.
  destruct (split_comma_head s) as (f & tl & r & E & Hs).
  destruct (strip_is_substring f) as (a & b & Hf).
  apply existsb_exists. exists (lower (strip f)). split.
  - unfold preferred_locs. rewrite E. now left.
  - remember (strip f) as m eqn:Em. clear Em E.
    subst f. subst s.
    rewrite !append_assoc3, !lower_append.
    apply str_in_append.
Qed.

(** C10 as the code has it: when preferred_locations is a non-empty text in
    which a stretch of whitespace, possibly empty, stands between two commas,
    or between a comma and an end of the text, or is the whole text, every
    property gets the 10-point bonus; the section is skipped (bonus 0, no
    reasoning line, for every property) when preferred_locations is null or
    the empty text, and for no other ASCII text, since a property located at
    that very text gets the bonus. *)
Theorem location_bonus_empty_term (profile : Profile.t) :
  (forall s before w after,
     Profile.preferred_locations profile = Some s ->
     s <> ""%string ->
     s = (before ++ (w ++ after))%string ->
     blank w ->
     before = ""%string \/ (exists b, before = (b ++ ",")%string) ->
     after = ""%string \/ (exists a, after = String ","%char a) ->
     forall property,
       location_section property profile = (10, [LocationMatches])) /\
  (Profile.preferred_locations profile = None \/
   Profile.preferred_locations profile = Some ""%string ->
   forall property, location_section property profile = (0, [])) /\
  (forall s,
     Profile.preferred_locations profile = Some s ->
     s <> ""%string ->
     is_ascii s ->
     forall property,
       Property.location property = s ->
       location_section property profile = (10, [LocationMatches])).
Proof.
  split; [|split].
  - intros s before w after Hs Hne Hsplit Hw Hb Ha property.
    apply (empty_term_gives_bonus property profile s Hs Hne).
    unfold preferred_locs. apply in_map_iff. exists w. split.
    + now rewrite blank_strip.
    + rewrite Hsplit. now apply blank_stretch_is_field.
  - intros H property. unfold location_section.
    apply truthy_str_false_iff in H. now rewrite H.
  - intros s Hs Hne _ property Hloc. unfold location_section.
    rewrite Hs, Hloc. destruct s as [|c t]; [contradiction|].
    cbn [truthy_str]. now rewrite own_text_matches.
Qed.

(** A trailing comma, a blank after the last comma, and a text that is one
    blank all give every property the bonus; a null gives it to none. *)
Lemma location_bonus_empty_term_witness :
  (forall property,
     location_section property (prefers (Some "Downtown,"%string))
     = (10, [LocationMatches])) /\
  (forall property,
     location_section property (prefers (Some "Downtown, "%string))
     = (10, [LocationMatches])) /\
  (forall property,
     location_section property (prefers (Some " "%string))
     = (10, [LocationMatches])) /\
  (forall property, location_section property (prefers None) = (0, [])) /\
  (forall property,
     Property.location property = "Suburbs, Family District"%string ->
     location_section property conservative = (10, [LocationMatches])).
Proof.
  split; [|split; [|split; [|split]]].
  - refine (proj1 (location_bonus_empty_term (prefers (Some "Downtown,"%string)))
              "Downtown,"%string "Downtown,"%string ""%string ""%string
              eq_refl _ eq_refl eq_refl _ _).
    + discriminate.
    + right. now exists "Downtown"%string.
    + now left.
  - refine (proj1 (location_bonus_empty_term (prefers (Some "Downtown, "%string)))
              "Downtown, "%string "Downtown,"%string " "%string ""%string
              eq_refl _ eq_refl eq_refl _ _).
    + discriminate.
    + right. now exists "Downtown"%string.
    + now left.
  - refine (proj1 (location_bonus_empty_term (prefers (Some " "%string)))
              " "%string ""%string " "%string ""%string
              eq_refl _ eq_refl eq_refl _ _).
    + discriminate.
    + now left.
    + now left.
  - refine (proj1 (proj2 (location_bonus_empty_term (prefers None))) _).
    now left.
  - refine (proj2 (proj2 (location_bonus_empty_term conservative))
              "Suburbs, Family District"%string eq_refl _ eq_refl).
    discriminate.
Defined.

(** C10 fails as stated: a profile dict without the key preferred_locations
    is not skipped, the function raises KeyError instead of returning a
    score; with the key set to null it returns the score 94 of the four
    other sections. *)
Lemma missing_locations_key_raises :
  calculate_investment_score_inline downtown_apartment conservative None
  = Raise (KeyError "preferred_locations") /\
  exists s why,
    calculate_investment_score_inline downtown_apartment conservative (Some None)
    = Ok (s, why) /\ s == 94.
Proof.
  split; [reflexivity|]. do 2 eexists. split; reflexivity.
Qed.

(** Without the trailing comma the same profile gives the industrial-zone
    property no bonus. *)
Example location_bonus_without_comma :
  location_section (nth 7 sample_properties downtown_apartment)
    (prefers (Some "Downtown"%string)) = (0, []) /\
  location_section downtown_apartment
    (prefers (Some "Downtown"%string)) = (10, [LocationMatches]).
Proof. split; reflexivity. Qed.

(** ** The sort *)








Lemma has_score_self (x : Recommendation.t) :
  has_score (Recommendation.score x) x = true.
Proof. unfold has_score. apply Qeq_bool_iff. reflexivity. Qed.

Lemma sorted_desc_head_max (x : Recommendation.t) (l : list Recommendation.t) y :
  sorted_desc (x :: l) -> In y (x :: l) ->
  Recommendation.score y <= Recommendation.score x.
Proof.
  intros Hs [<-|Hin]; [apply Qle_refl|].
  apply StronglySorted_inv in Hs as [_ Hx].
  rewrite Forall_forall in Hx. now apply Hx.
Qed.

(** The sort is determined by its two properties: a list sorted by
    descending score that keeps the ties of [l] in order is the model's. *)
Lemma sorted_stable_unique (l1 l2 : list Recommendation.t) :
  sorted_desc l1 -> sorted_desc l2 ->
  (forall s, filter (has_score s) l1 = filter (has_score s) l2) ->
  l1 = l2.
Proof.
  revert l2. induction l1 as [|x t1 IH]; intros l2 H1 H2 Hf.
  - destruct l2 as [|y t2]; [reflexivity|].
    specialize (Hf (Recommendation.score y)). cbn [filter] in Hf.
    rewrite has_score_self in Hf. discriminate.
  - destruct l2 as [|y t2].
    + specialize (Hf (Recommendation.score x)). cbn [filter] in Hf.
      rewrite has_score_self in Hf. discriminate.
    + assert (Hxy : Recommendation.score x <= Recommendation.score y).
      { apply (sorted_desc_head_max y t2 x H2).
        apply (filter_In (has_score (Recommendation.score x))).
        rewrite <- Hf. cbn [filter]. rewrite has_score_self. now left. }
      assert (Hyx : Recommendation.score y <= Recommendation.score x).
      { apply (sorted_desc_head_max x t1 y H1).
        apply (filter_In (has_score (Recommendation.score y))).
        rewrite Hf. cbn [filter]. rewrite has_score_self. now left. }
      assert (E : x = y).
      { pose proof (Hf (Recommendation.score x)) as Hx. cbn [filter] in Hx.
        rewrite has_score_self in Hx.
        assert (Ey : has_score (Recommendation.score x) y = true)
          by (unfold has_score; apply Qeq_bool_iff; lra).
        rewrite Ey in Hx. now injection Hx. }
      subst y. f_equal. apply IH.
      * now apply StronglySorted_inv in H1.
      * now apply StronglySorted_inv in H2.
      * intros s. specialize (Hf s). cbn [filter] in Hf.
        destruct (has_score s x); [now injection Hf | exact Hf].
Qed.

(** ** The recommendation pipeline *)


Lemma mapM_total {A B : Type} (f : A -> result B) (xs : list A) :
  Forall (fun x => exists y, f x = Ok y) xs -> exists ys, mapM f xs = Ok ys.
Proof.
  induction 1 as [|x t [y Hy] _ [ys Hys]]; cbn [mapM].
  - eexists. reflexivity.
  - rewrite Hy, Hys. eexists. reflexivity.
Qed.

Lemma mapM_map_inv {A B : Type} (f : A -> result B) (g : B -> A)
  (xs : list A) (ys : list B) :
  (forall x y, f x = Ok y -> g y = x) ->
  mapM f xs = Ok ys -> map g ys = xs.
Proof.
  intros Hg. revert ys. induction xs as [|x t IH]; intros ys H; cbn [mapM] in H.
  - now injection H as <-.
  - apply bind_Ok_inv in H as (y & Hy & H).
    apply bind_Ok_inv in H as (ys' & Hys & H). injection H as <-.
    cbn [map]. f_equal; [now apply Hg | now apply IH].
Qed.


Lemma price_section_total (property : Property.t) (profile : Profile.t) :
  ~ Property.price property == 0 ->
  (Profile.budget_max profile < Property.price property ->
   ~ Profile.budget_max profile == 0) ->
  exists p, price_section property profile = Ok p.
Proof.
  intros Hn Hb.
  destruct (Qlt_le_dec (Profile.budget_max profile) (Property.price property))
    as [Hover|Hle].
  - eexists. apply price_section_over; auto.
  - destruct (Qlt_le_dec (Property.price property) (Profile.budget_min profile))
      as [Hunder|Hge].
    + eexists. now apply price_section_under.
    + eexists. apply price_section_in_budget. now split.
Qed.

Lemma score_property_total (profile : Profile.t) (prop : Property.t) :
  scorable profile prop -> exists r, score_property profile prop = Ok r.
Proof.
  intros (Ht & Hl & Hn & Hb).
  destruct (price_section_total prop profile Hn Hb) as [p Hps].
  destruct (risk_section_total prop profile Ht Hl) as (v & w & Hrs).
  destruct (performance_sections_total prop profile Hn) as [[y Hys] [n Hns]].
  destruct (score_locals_complete _ _ _ _ _ _ Hps Hrs Hys Hns) as [l Hloc].
  unfold score_property, calculate_rental_yield, calculate_net_roi,
    calculate_investment_score.
  rewrite !py_div_ok by assumption. cbn [bind]. rewrite Hloc. cbn [bind].
  eexists. reflexivity.
Qed.

Lemma get_recommendations_success (db : database) (data : Request.t) body db' :
  get_recommendations db data = (Ok (Success body), db') ->
  exists profile scored,
    resolve_profile db data = inl profile /\
    mapM (score_property profile) (properties db) = Ok scored /\
    body_profile body = profile /\
    body_recommendations body
    = py_slice_to (sort_by_score_desc scored)
        (match Request.top_n data with Some k => k | None => 5%Z end) /\
    total_analyzed body = List.length (sort_by_score_desc scored) /\
    recommendations db'
    = recommendations db
      ++ map (history_row profile) (body_recommendations body).
Proof.
  unfold get_recommendations.
  destruct (resolve_profile db data) as [profile|err] eqn:Er.
  - destruct (mapM (score_property profile) (properties db)) as [scored|e] eqn:Em;
      [|discriminate].
    intros H. injection H as <- <-. exists profile, scored.
    cbn [body_profile body_recommendations total_analyzed recommendations].
    repeat split; reflexivity || assumption.
  - intros H. injection H as -> _. exfalso.
    unfold resolve_profile in Er.
    destruct (truthy_int _); destruct (Request.profile_id data);
      try destruct (select_profile db _); try destruct (Request.custom_profile data);
      discriminate.
Qed.

Lemma get_recommendations_total (db : database) (data : Request.t) profile :
  resolve_profile db data = inl profile ->
  Forall (scorable profile) (properties db) ->
  exists body db', get_recommendations db data = (Ok (Success body), db').
Proof.
  intros Hr Hs. unfold get_recommendations. rewrite Hr.
  destruct (mapM_total (score_property profile) (properties db)) as [scored Hm].
  { eapply Forall_impl; [|exact Hs]. apply score_property_total. }
  rewrite Hm. do 2 eexists. reflexivity.
Qed.







Lemma existsb_eqb_In (s : string) (l : list string) :
  existsb (String.eqb s) l = true -> In s l.
Proof.
  intros H. apply existsb_exists in H as (x & Hin & E).
  apply String.eqb_eq in E. now subst x.
Qed.

Lemma scorableb_sound (profile : Profile.t) (property : Property.t) :
  scorableb profile property = true -> scorable profile property.
Proof.
  unfold scorableb, scorable. rewrite !andb_true_iff.
  intros [[[Ht Hl] Hp] Hb].
  split; [now apply existsb_eqb_In|]. split; [now apply existsb_eqb_In|].
  apply negb_true_iff in Hp. split.
  - intros E. apply Qeq_bool_iff in E. congruence.
  - intros Hlt E. apply Qlt_bool_iff in Hlt. apply Qeq_bool_iff in E.
    rewrite Hlt, E in Hb. discriminate.
Qed.

Lemma forallb_scorable (profile : Profile.t) (catalog : list Property.t) :
  forallb (scorableb profile) catalog = true ->
  Forall (scorable profile) catalog.
Proof.
  intros H. apply Forall_forall. intros p Hp. apply scorableb_sound.
  rewrite forallb_forall in H. now apply H.
Qed.

Lemma sample_catalog_scorable :
  Forall (scorable conservative) (properties sample_db).
Proof. apply forallb_scorable. reflexivity. Qed.




(** ** Profile resolution *)

(** C8 as the code has it: a non-zero profile id, within the integers SQLite
    binds, that selects no stored profile gives the 404 response; a request
    with no profile id, or with profile id 0 (which the handler treats as
    absent), and no inline profile gives the 400 response.  Both responses
    carry no recommendations and the database, history included, is what it
    was. *)
Theorem profile_resolution_failures (db : database) (data : Request.t) :
  (forall profile_id,
     Request.profile_id data = Some profile_id ->
     profile_id <> 0%Z ->
     sqlite_int profile_id ->
     select_profile db profile_id = None ->
     get_recommendations db data = (Ok (Error 404 "Profile not found"), db)) /\
  (Request.profile_id data = None \/ Request.profile_id data = Some 0%Z ->
   Request.custom_profile data = None ->
   get_recommendations db data
   = (Ok (Error 400 "Profile ID or custom profile required"), db)).
Proof.
  split.
  - intros profile_id Hid Hnz _ Hsel.
    unfold get_recommendations, resolve_profile. rewrite Hid. cbn [truthy_int].
    apply Z.eqb_neq in Hnz. rewrite Hnz. cbn [negb]. now rewrite Hsel.
  - intros Hid Hcustom.
    unfold get_recommendations, resolve_profile. rewrite Hcustom.
    destruct Hid as [-> | ->]; reflexivity.
Qed.

(** On the seeded database: profile id 9 is not stored, and an empty request
    names no profile. *)
Lemma profile_resolution_failures_witness :
  get_recommendations sample_db (request_for 9 None)
  = (Ok (Error 404 "Profile not found"), sample_db) /\
  get_recommendations sample_db (Request.mk None None None)
  = (Ok (Error 400 "Profile ID or custom profile required"), sample_db).
Proof.
  split.
  - refine (proj1 (profile_resolution_failures sample_db (request_for 9 None))
              9%Z eq_refl _ _ eq_refl).
    + discriminate.
    + unfold sqlite_int. lia.
  - refine (proj2 (profile_resolution_failures sample_db (Request.mk None None None))
              _ eq_refl).
    now left.
Defined.

(** C8 fails as stated: profile id 0 is supplied and selects no stored
    profile, yet the response is the 400 one when no inline profile comes
    with it, and with an inline profile five recommendations are returned
    and recorded. *)
Lemma profile_id_zero_is_not_looked_up :
  select_profile sample_db 0 = None /\
  get_recommendations sample_db (request_for 0 None)
  = (Ok (Error 400 "Profile ID or custom profile required"), sample_db) /\
  exists body db',
    get_recommendations sample_db (Request.mk (Some 0%Z) (Some custom_investor) None)
    = (Ok (Success body), db') /\
    List.length (body_recommendations body) = 5%nat /\
    List.length (recommendations db') = 5%nat.
Proof.
  split; [reflexivity|]. split; [reflexivity|].
  do 2 eexists. split; [vm_compute; reflexivity|].
  split; reflexivity.
Qed.

(** X9: a response with recommendations appends exactly the returned ones to
    the history; the other outcomes leave the database unchanged. *)
Lemma history_written_on_success_only (db : database) (data : Request.t) out db' :
  get_recommendations db data = (out, db') ->
  match out with
  | Ok (Success body) =>
      recommendations db'
      = recommendations db
        ++ map (history_row (body_profile body)) (body_recommendations body)
  | _ => db' = db
  end.
Proof.
  intros H. destruct out as [[body|status message]|e].
  - apply get_recommendations_success in H
      as (profile & scored & _ & _ & -> & _ & _ & Hh). exact Hh.
  - unfold get_recommendations in H.
    destruct (resolve_profile db data) as [profile|err].
    + destruct (mapM _ _); [discriminate|]. now injection H as _ <-.
    + now injection H as _ <-.
  - unfold get_recommendations in H.
    destruct (resolve_profile db data) as [profile|err].
    + destruct (mapM _ _); [discriminate|]. now injection H as _ <-.
    + now injection H as _ <-.
Qed.

(** ** Comparison *)

Lemma compare_one_ok (prop : Property.t) :
  comparable prop ->
  exists c,
    compare_one prop = Ok c /\
    Comparison.row c = prop /\
    Comparison.rental_yield c == rental_yield_of prop /\
    Comparison.net_roi c == net_roi_of prop /\
    Comparison.price_per_sqft c == Property.price prop / Property.size prop /\
    Comparison.maintenance_ratio c
    == Property.maintenance_cost prop / Property.annual_rental_income prop * 100.
Proof.
  intros (Hp & Hs & Hi). unfold compare_one, calculate_rental_yield, calculate_net_roi.
  rewrite !py_div_ok by assumption. cbn [bind].
  eexists. split; [reflexivity|]. cbn. repeat split; reflexivity.
Qed.

(** The ratio's division is not guarded. *)
Lemma compare_one_zero_income (prop : Property.t) :
  Property.annual_rental_income prop == 0 ->
  compare_one prop = Raise ZeroDivisionError.
Proof.
  intros Hi. unfold compare_one, calculate_rental_yield, calculate_net_roi.
  rewrite (py_div_zero (Property.maintenance_cost prop)) by assumption.
  unfold py_div.
  destruct (Qeq_bool (Property.price prop) 0); [reflexivity|].
  destruct (Qeq_bool (Property.size prop) 0); reflexivity.
Qed.

(** The properties a comparison request selects, in request order. *)
Lemma compare_loop_ok (db : database) (property_ids : list Z) :
  (forall prop_id prop,
     In prop_id property_ids -> select_property db prop_id = Some prop ->
     comparable prop) ->
  exists cs,
    compare_loop db property_ids = Ok cs /\
    map Comparison.row cs
    = flat_map (fun prop_id => match select_property db prop_id with
                               | Some prop => [prop]
                               | None => []
                               end) property_ids /\
    Forall (fun c =>
              Comparison.maintenance_ratio c
              == Property.maintenance_cost (Comparison.row c)
                 / Property.annual_rental_income (Comparison.row c) * 100) cs.
Proof.
  induction property_ids as [|prop_id rest IH]; intros Hc; cbn [compare_loop flat_map].
  - exists []. repeat split. constructor.
  - destruct IH as (cs & Hcs & Hrows & Hratio).
    { intros i p Hi. apply Hc. now right. }
    destruct (select_property db prop_id) as [prop|] eqn:E.
    + destruct (compare_one_ok prop) as (c & Hone & Hrow & _ & _ & _ & Hr).
      { apply (Hc prop_id); [now left | exact E]. }
      rewrite Hone, Hcs. cbn [bind]. exists (c :: cs).
      split; [reflexivity|]. split.
      * cbn [map app]. now rewrite Hrow, Hrows.
      * constructor; [now rewrite Hrow | exact Hratio].
    + exists cs. auto.
Qed.

(** C9 as the code has it: when the requested ids are integers SQLite binds
    and every requested property that exists has a non-zero annual rental
    income (and a non-zero price and size, the other two divisors), the
    comparison returns its structured result, one entry per existing
    property in request order, with maintenance_ratio = maintenance_cost /
    annual_rental_income * 100. *)
Theorem comparison_with_rental_income (db : database) (property_ids : list Z) :
  property_ids <> [] ->
  Forall sqlite_int property_ids ->
  (forall prop_id prop,
     In prop_id property_ids -> select_property db prop_id = Some prop ->
     comparable prop) ->
  exists cs,
    compare_properties db property_ids = Ok (Success cs) /\
    map Comparison.row cs
    = flat_map (fun prop_id => match select_property db prop_id with
                               | Some prop => [prop]
                               | None => []
                               end) property_ids /\
    Forall (fun c =>
              Comparison.maintenance_ratio c
              == Property.maintenance_cost (Comparison.row c)
                 / Property.annual_rental_income (Comparison.row c) * 100) cs.
Proof.
  intros Hne _ Hc.
  destruct (compare_loop_ok db property_ids Hc) as (cs & Hcs & Hrows & Hratio).
  exists cs. split; [|split; assumption].
  unfold compare_properties. destruct property_ids as [|i t]; [contradiction|].
  now rewrite Hcs.
Qed.

Lemma sample_catalog_comparable (prop_id : Z) (prop : Property.t) :
  select_property sample_db prop_id = Some prop -> comparable prop.
Proof.
  intros H. apply find_some in H as [Hin _].
  cbn [properties sample_db sample_properties In] in Hin.
  repeat (destruct Hin as [<-|Hin];
          [repeat split; intros E; vm_compute in E; discriminate E|]).
  contradiction.
Qed.

(** Comparing the seeded properties 1 and 2 with the unknown id 99 between
    them returns the two, with maintenance ratios 12.5 and 22.2...%. *)
Lemma comparison_with_rental_income_witness :
  exists cs,
    compare_properties sample_db [1; 99; 2]%Z = Ok (Success cs) /\
    map (fun c => Property.id (Comparison.row c)) cs = [1; 2]%Z /\
    Forall (fun c =>
              Comparison.maintenance_ratio c
              == Property.maintenance_cost (Comparison.row c)
                 / Property.annual_rental_income (Comparison.row c) * 100) cs.
Proof.
  destruct (comparison_with_rental_income sample_db [1; 99; 2]%Z)
    as (cs & H & Hrows & Hratio).
  - discriminate.
  - repeat constructor; unfold sqlite_int; lia.
  - intros prop_id prop _. apply sample_catalog_comparable.
  - exists cs. split; [exact H|]. split; [|exact Hratio].
    rewrite <- (map_map Comparison.row Property.id), Hrows. reflexivity.
Defined.

(** C9 fails as stated: a stored property without rental income makes the
    comparison raise ZeroDivisionError, alone or after a property that
    compares well. *)
Lemma comparison_divides_by_zero_income :
  select_property db_with_vacant_lot 11 = Some vacant_lot /\
  Property.annual_rental_income vacant_lot == 0 /\
  compare_properties db_with_vacant_lot [11]%Z = Raise ZeroDivisionError /\
  compare_properties db_with_vacant_lot [1; 11]%Z = Raise ZeroDivisionError.
Proof. repeat split. Qed.

(** In general: one requested property with zero income that exists, and the
    handler raises. *)
Lemma compare_properties_raises (db : database) (property_ids : list Z) prop_id prop :
  In prop_id property_ids ->
  select_property db prop_id = Some prop ->
  Property.annual_rental_income prop == 0 ->
  exists e, compare_properties db property_ids = Raise e.
Proof.
  intros Hin Hsel Hz.
  assert (Hloop : exists e, compare_loop db property_ids = Raise e).
  { induction property_ids as [|i t IH]; [contradiction|].
    cbn [compare_loop]. destruct Hin as [->|Hin].
    - rewrite Hsel, compare_one_zero_income by assumption. eexists. reflexivity.
    - destruct (IH Hin) as [e He].
      destruct (select_property db i) as [p|]; [|eexists; exact He].
      destruct (compare_one p); cbn [bind]; [|eexists; reflexivity].
      rewrite He. eexists. reflexivity. }
  destruct Hloop as [e He]. exists e.
  unfold compare_properties. destruct property_ids; [contradiction|].
  now rewrite He.
Qed.

(** * Further properties of the handlers *)

(** ** Row ids and lookups *)

Lemma next_id_fresh (ids : list Z) (i : Z) : In i ids -> (i < next_id ids)%Z.
Proof.
  unfold next_id. induction ids as [|j t IH]; [contradiction|].
  cbn [fold_right]. intros [->|Hin]; [lia|]. specialize (IH Hin). lia.
Qed.

Lemma next_id_positive (ids : list Z) : (0 < next_id ids)%Z.
Proof.
  unfold next_id. induction ids as [|j t IH]; cbn [fold_right]; lia.
Qed.

Lemma find_app_some {A : Type} (f : A -> bool) (l l' : list A) (x : A) :
  find f l = Some x -> find f (l ++ l') = Some x.
Proof.
  induction l as [|y t IH]; cbn [find app]; [discriminate|].
  destruct (f y); auto.
Qed.

Lemma find_app_none {A : Type} (f : A -> bool) (l l' : list A) :
  find f l = None -> find f (l ++ l') = find f l'.
Proof.
  induction l as [|y t IH]; cbn [find app]; [reflexivity|].
  destruct (f y); [discriminate|auto].
Qed.

Lemma find_none_iff {A : Type} (f : A -> bool) (l : list A) :
  find f l = None <-> forall x, In x l -> f x = false.
Proof.
  split.
  - apply find_none.
  - induction l as [|y t IH]; intros H; cbn [find]; [reflexivity|].
    rewrite (H y) by now left. apply IH. intros x Hx. apply H. now right.
Qed.

Lemma select_property_fresh (db : database) :
  select_property db (next_id (map Property.id (properties db))) = None.
Proof.
  unfold select_property. apply find_none_iff. intros p Hp.
  apply Z.eqb_neq. apply (in_map Property.id) in Hp.
  apply next_id_fresh in Hp. lia.
Qed.

Lemma select_profile_fresh (db : database) :
  select_profile db (next_id (map profile_key (investor_profiles db))) = None.
Proof.
  unfold select_profile. apply find_none_iff. intros p Hp.
  apply (in_map profile_key) in Hp. apply next_id_fresh in Hp.
  set (n := next_id _) in *.
  unfold profile_key in Hp. destruct (Profile.id p) as [i|]; [|reflexivity].
  apply Z.eqb_neq. lia.
Qed.


(** ** init_db *)

Lemma seed_properties_tables (vs : list NewProperty.t) (db : database) :
  let d := fold_left (fun d v => snd (insert_property d v)) vs db in
  List.length (properties d) = (List.length (properties db) + List.length vs)%nat /\
  investor_profiles d = investor_profiles db /\
  recommendations d = recommendations db.
Proof.
  cbv zeta. revert db. induction vs as [|v t IH]; intros db; cbn [fold_left].
  - cbn [List.length]. auto with arith.
  - destruct (IH (snd (insert_property db v))) as (Hl & Hp & Hr).
    rewrite Hl, Hp, Hr. cbn [insert_property snd properties investor_profiles
                               recommendations List.length].
    rewrite length_app. cbn [List.length]. repeat split. lia.
Qed.

Lemma seed_profiles_tables (vs : list NewProfile.t) (db : database) :
  let d := fold_left (fun d v => snd (insert_profile d v)) vs db in
  List.length (investor_profiles d)
  = (List.length (investor_profiles db) + List.length vs)%nat /\
  properties d = properties db /\
  recommendations d = recommendations db.
Proof.
  cbv zeta. revert db. induction vs as [|v t IH]; intros db; cbn [fold_left].
  - cbn [List.length]. auto with arith.
  - destruct (IH (snd (insert_profile db v))) as (Hl & Hp & Hr).
    rewrite Hl, Hp, Hr. cbn [insert_profile snd properties investor_profiles
                               recommendations List.length].
    rewrite length_app. cbn [List.length]. repeat split. lia.
Qed.

Lemma length_zero_nil {A : Type} (l : list A) :
  (List.length l =? 0)%nat = true <-> l = [].
Proof. destruct l; cbn; split; intros H; auto; discriminate. Qed.

Lemma init_db_tables (db : database) :
  (properties db <> [] -> properties (init_db db) = properties db) /\
  (investor_profiles db <> [] ->
   investor_profiles (init_db db) = investor_profiles db) /\
  recommendations (init_db db) = recommendations db /\
  properties (init_db db) <> [] /\
  investor_profiles (init_db db) <> [].
Proof.
  unfold init_db.
  pose proof (seed_properties_tables seed_properties db) as (Hl1 & Hp1 & Hr1).
  set (db1 := if (List.length (properties db) =? 0)%nat
              then fold_left (fun d v => snd (insert_property d v)) seed_properties db
              else db).
  assert (H1 : (properties db <> [] -> properties db1 = properties db) /\
               investor_profiles db1 = investor_profiles db /\
               recommendations db1 = recommendations db /\
               properties db1 <> []).
  { subst db1. destruct (List.length (properties db) =? 0)%nat eqn:E.
    - apply length_zero_nil in E. split; [intros H; contradiction|].
      split; [exact Hp1|]. split; [exact Hr1|].
      intros Hn. rewrite Hn in Hl1. cbn in Hl1. lia.
    - repeat split. intros Hn. apply length_zero_nil in Hn. congruence. }
  destruct H1 as (Hkeep & Hprof & Hrec & Hne).
  pose proof (seed_profiles_tables seed_profiles db1) as (Hl2 & Hp2 & Hr2).
  destruct (List.length (investor_profiles db1) =? 0)%nat eqn:E.
  - apply length_zero_nil in E. rewrite Hp2, Hr2.
    split; [exact Hkeep|]. split; [intros H; congruence|].
    split; [exact Hrec|]. split; [exact Hne|].
    intros Hn. rewrite Hn in Hl2. cbn in Hl2. lia.
  - split; [exact Hkeep|]. split; [intros _; exact Hprof|].
    split; [exact Hrec|]. split; [exact Hne|].
    intros Hn. apply length_zero_nil in Hn. congruence.
Qed.

(** X1: init_db seeds a table only when it is empty: it leaves a non-empty table
    and the history as they are, never leaves the catalog or the profiles
    empty, turns the empty database into the seeded one, and running it
    again changes nothing. *)
Theorem init_db_seeds_once (db : database) :
  init_db (init_db db) = init_db db /\
  (properties db <> [] -> properties (init_db db) = properties db) /\
  (investor_profiles db <> [] ->
   investor_profiles (init_db db) = investor_profiles db) /\
  recommendations (init_db db) = recommendations db /\
  (db = empty_db -> init_db db = sample_db).
Proof.
  destruct (init_db_tables db) as (Hp & Hi & Hr & Hnp & Hni).
  split; [|split; [exact Hp|split; [exact Hi|split; [exact Hr|]]]].
  - set (d := init_db db) in *. unfold init_db.
    assert (E1 : (List.length (properties d) =? 0)%nat = false).
    { destruct (List.length (properties d) =? 0)%nat eqn:E; [|reflexivity].
      apply length_zero_nil in E. contradiction. }
    rewrite E1.
    assert (E2 : (List.length (investor_profiles d) =? 0)%nat = false).
    { destruct (List.length (investor_profiles d) =? 0)%nat eqn:E; [|reflexivity].
      apply length_zero_nil in E. contradiction. }
    now rewrite E2.
  - intros ->. vm_compute. reflexivity.
Qed.

Lemma init_db_seeds_once_witness :
  init_db empty_db = sample_db /\
  properties (init_db db_with_vacant_lot) = properties db_with_vacant_lot /\
  init_db (init_db db_with_vacant_lot) = init_db db_with_vacant_lot.
Proof.
  split; [|split].
  - exact (proj2 (proj2 (proj2 (proj2 (init_db_seeds_once empty_db)))) eq_refl).
  - refine (proj1 (proj2 (init_db_seeds_once db_with_vacant_lot)) _).
    discriminate.
  - exact (proj1 (init_db_seeds_once db_with_vacant_lot)).
Defined.

(** ** Adding and reading properties *)

Lemma with_metrics_ok (prop : Property.t) :
  ~ Property.price prop == 0 ->
  with_metrics prop
  = Ok (PropDict.mk prop
          (Property.annual_rental_income prop / Property.price prop * 100)
          ((Property.annual_rental_income prop - Property.maintenance_cost prop)
           / Property.price prop * 100)).
Proof.
  intros Hn. unfold with_metrics, calculate_rental_yield, calculate_net_roi.
  now rewrite !py_div_ok by assumption.
Qed.

Lemma with_metrics_zero_price (prop : Property.t) :
  Property.price prop == 0 -> with_metrics prop = Raise ZeroDivisionError.
Proof.
  intros Hz. unfold with_metrics, calculate_rental_yield.
  now rewrite py_div_zero by assumption.
Qed.

Lemma with_metrics_inv (prop : Property.t) (d : PropDict.t) :
  with_metrics prop = Ok d ->
  ~ Property.price prop == 0 /\
  PropDict.row d = prop /\
  PropDict.rental_yield d = rental_yield_of prop /\
  PropDict.net_roi d = net_roi_of prop.
Proof.
  intros H.
  destruct (Qeq_dec (Property.price prop) 0) as [Hz|Hn].
  - rewrite with_metrics_zero_price in H by assumption. discriminate.
  - rewrite with_metrics_ok in H by assumption. injection H as <-.
    repeat split. exact Hn.
Qed.

(** X2: a property added with all required fields gets an id no stored property
    has, is the row that id selects afterwards, with the submitted values,
    and every property that could be selected before still is. *)
Theorem added_property_is_stored (db : database) (data : PropertyForm.t)
  (property_id : Z) (message : string) (db' : database) :
  add_property db data = (Created property_id message, db') ->
  select_property db property_id = None /\
  (exists prop,
     select_property db' property_id = Some prop /\
     Property.id prop = property_id /\
     PropertyForm.name data = Some (Property.name prop) /\
     PropertyForm.location data = Some (Property.location prop) /\
     PropertyForm.price data = Some (Property.price prop) /\
     PropertyForm.size data = Some (Property.size prop) /\
     PropertyForm.annual_rental_income data
     = Some (Property.annual_rental_income prop) /\
     PropertyForm.maintenance_cost data = Some (Property.maintenance_cost prop) /\
     PropertyForm.risk_level data = Some (Property.risk_level prop) /\
     PropertyForm.property_type data = Some (Property.property_type prop) /\
     PropertyForm.year_built data = Property.year_built prop /\
     PropertyForm.description data = Property.description prop) /\
  (forall other prop,
     select_property db other = Some prop ->
     select_property db' other = Some prop) /\
  investor_profiles db' = investor_profiles db /\
  recommendations db' = recommendations db.
Proof.
  unfold add_property. destruct (property_values data) as [v|] eqn:Ev;
    [|discriminate].
  cbn [insert_property]. intros H. injection H as <- _ <-.
  split; [apply select_property_fresh|]. split; [|split].
  - eexists. split.
    + unfold select_property at 1. cbn [properties].
      rewrite find_app_none by apply select_property_fresh.
      cbn [find Property.id]. now rewrite Z.eqb_refl.
    + cbn [Property.id Property.name Property.location Property.price
             Property.size Property.annual_rental_income
             Property.maintenance_cost Property.risk_level
             Property.property_type Property.year_built Property.description].
      unfold property_values in Ev.
      destruct (PropertyForm.name data), (PropertyForm.location data),
        (PropertyForm.price data), (PropertyForm.size data),
        (PropertyForm.annual_rental_income data),
        (PropertyForm.maintenance_cost data),
        (PropertyForm.risk_level data), (PropertyForm.property_type data);
        try discriminate.
      injection Ev as <-. repeat split.
  - intros other prop H. unfold select_property in *. cbn [properties].
    now apply find_app_some.
  - split; reflexivity.
Qed.

Lemma added_property_is_stored_witness :
  exists db',
    add_property sample_db land_form = (Created 11 "Property added successfully", db') /\
    select_property sample_db 11 = None /\
    (exists prop,
       select_property db' 11 = Some prop /\
       Property.name prop = "Corner Plot"%string) /\
    select_property db' 1 = Some downtown_apartment.
Proof.
  eexists. split; [reflexivity|].
  destruct (added_property_is_stored sample_db land_form 11 _ _ eq_refl)
    as (Hfresh & (prop & Hsel & _ & Hname & _) & Hold & _).
  split; [exact Hfresh|]. split.
  - exists prop. split; [exact Hsel|]. now injection Hname.
  - apply Hold. reflexivity.
Defined.

(** X3: add_property rejects a body exactly when one of the eight required
    fields is absent: the response is the 400 one and the database is
    unchanged; otherwise a property is created. *)
Theorem add_property_requires_fields (db : database) (data : PropertyForm.t) :
  (PropertyForm.name data = None \/ PropertyForm.location data = None \/
   PropertyForm.price data = None \/ PropertyForm.size data = None \/
   PropertyForm.annual_rental_income data = None \/
   PropertyForm.maintenance_cost data = None \/
   PropertyForm.risk_level data = None \/
   PropertyForm.property_type data = None) <->
  add_property db data = (Rejected 400 "Missing required fields", db).
Proof.
  unfold add_property, property_values.
  destruct (PropertyForm.name data), (PropertyForm.location data),
    (PropertyForm.price data), (PropertyForm.size data),
    (PropertyForm.annual_rental_income data),
    (PropertyForm.maintenance_cost data),
    (PropertyForm.risk_level data), (PropertyForm.property_type data);
    cbn [insert_property];
    (split; [intros H; try reflexivity;
             repeat (destruct H as [H|H]; try discriminate H); discriminate H
            |intros H; try discriminate H; tauto]).
Qed.

Lemma add_property_requires_fields_witness :
  add_property sample_db land_form_without_price
  = (Rejected 400 "Missing required fields", sample_db).
Proof.
  apply (proj1 (add_property_requires_fields sample_db land_form_without_price)).
  right. right. left. reflexivity.
Defined.



(** ** Listing the catalog *)

Lemma insert_by_price_perm (x : Property.t) (l : list Property.t) :
  Permutation (insert_by_price x l) (x :: l).
Proof.
  induction l as [|y t IH]; cbn [insert_by_price]; [reflexivity|].
  destruct (Qlt_bool _ _); [|reflexivity].
  rewrite IH. apply perm_swap.
Qed.

Lemma order_by_price_perm (l : list Property.t) :
  Permutation (order_by_price l) l.
Proof.
  induction l as [|x t IH]; cbn [order_by_price fold_right]; [reflexivity|].
  fold (order_by_price t). rewrite insert_by_price_perm. now constructor.
Qed.

Lemma insert_by_price_sorted (x : Property.t) (l : list Property.t) :
  sorted_by_price l -> sorted_by_price (insert_by_price x l).
Proof.
  unfold sorted_by_price. induction l as [|y t IH]; intros Hs;
    cbn [insert_by_price].
  - repeat constructor.
  - apply StronglySorted_inv in Hs as [Ht Hy].
    destruct (Qlt_bool _ _) eqn:E.
    + apply Qlt_bool_iff in E. constructor; [now apply IH|].
      apply (Permutation_Forall (Permutation_sym (insert_by_price_perm x t))).
      constructor; [now apply Qlt_le_weak | exact Hy].
    + apply Qlt_bool_false_iff in E. constructor.
      * now constructor.
      * constructor; [exact E|].
        eapply Forall_impl; [|exact Hy]. cbv beta. intros z Hz.
        eapply Qle_trans; eassumption.
Qed.

Lemma order_by_price_sorted (l : list Property.t) :
  sorted_by_price (order_by_price l).
Proof.
  induction l as [|x t IH]; cbn [order_by_price fold_right].
  - constructor.
  - now apply insert_by_price_sorted.
Qed.

Lemma mapM_Forall2 {A B : Type} (f : A -> result B) (xs : list A) (ys : list B) :
  mapM f xs = Ok ys -> Forall2 (fun x y => f x = Ok y) xs ys.
Proof.
  revert ys. induction xs as [|x t IH]; intros ys H; cbn [mapM] in H.
  - injection H as <-. constructor.
  - apply bind_Ok_inv in H as (y & Hy & H).
    apply bind_Ok_inv in H as (ys' & Hys & H). injection H as <-.
    constructor; auto.
Qed.

(** When every failure of [f] is the exception [e], one failing element
    makes the whole loop raise [e]. *)
Lemma mapM_raises {A B : Type} (f : A -> result B) (e : exn) (xs : list A) (x : A) :
  (forall a e', f a = Raise e' -> e' = e) ->
  In x xs -> f x = Raise e -> mapM f xs = Raise e.
Proof.
  intros Hall. induction xs as [|a t IH]; [contradiction|].
  intros Hin Hx. cbn [mapM].
  destruct (f a) as [b|e'] eqn:Ea.
  - destruct Hin as [->|Hin]; [congruence|].
    cbn [bind]. now rewrite IH.
  - cbn [bind]. f_equal. now apply (Hall a).
Qed.

Lemma with_metrics_raises_only_zero_division (prop : Property.t) (e : exn) :
  with_metrics prop = Raise e -> e = ZeroDivisionError.
Proof.
  destruct (Qeq_dec (Property.price prop) 0) as [Hz|Hn].
  - rewrite with_metrics_zero_price by assumption. now intros [= <-].
  - rewrite with_metrics_ok by assumption. discriminate.
Qed.

(** X5: get_properties lists every stored property once, by ascending price,
    each with the two metrics of the formulas; it returns the list when no
    stored price is 0, and a single stored property with price 0 makes the
    whole listing raise ZeroDivisionError. *)
Theorem get_properties_outcomes (db : database) :
  (forall listing,
     get_properties db = Ok (Success listing) ->
     Permutation (map PropDict.row listing) (properties db) /\
     sorted_by_price (map PropDict.row listing) /\
     Forall (fun d =>
               PropDict.rental_yield d = rental_yield_of (PropDict.row d) /\
               PropDict.net_roi d = net_roi_of (PropDict.row d)) listing) /\
  (Forall (fun prop => ~ Property.price prop == 0) (properties db) ->
   exists listing, get_properties db = Ok (Success listing)) /\
  (forall prop,
     In prop (properties db) -> Property.price prop == 0 ->
     get_properties db = Raise ZeroDivisionError).
Proof.
  unfold get_properties. split; [|split].
  - intros listing H. apply bind_Ok_inv in H as (l & Hm & H). injection H as <-.
    assert (Hrows : map PropDict.row l = order_by_price (properties db)).
    { eapply mapM_map_inv; [|exact Hm]. intros x y Hxy.
      now apply with_metrics_inv in Hxy. }
    rewrite Hrows. split; [apply order_by_price_perm|].
    split; [apply order_by_price_sorted|].
    apply mapM_Forall2 in Hm. clear Hrows.
    induction Hm as [|x y xs ys Hxy _ IH]; constructor; [|exact IH].
    apply with_metrics_inv in Hxy as (_ & -> & Hy & Hr). auto.
  - intros Hall.
    destruct (mapM_total with_metrics (order_by_price (properties db)))
      as [l Hl].
    + apply (Permutation_Forall (Permutation_sym (order_by_price_perm _))).
      eapply Forall_impl; [|exact Hall]. cbv beta. intros p Hp.
      eexists. now apply with_metrics_ok.
    + rewrite Hl. eexists. reflexivity.
  - intros prop Hin Hz.
    rewrite (mapM_raises with_metrics ZeroDivisionError _ prop).
    + reflexivity.
    + intros a e'. apply with_metrics_raises_only_zero_division.
    + apply (Permutation_in _ (Permutation_sym (order_by_price_perm _))), Hin.
    + now apply with_metrics_zero_price.
Qed.

(** The seeded catalog, cheapest first: the budget apartment (id 8) leads
    and the luxury villa (id 7) closes the listing. *)
Lemma get_properties_outcomes_witness :
  exists listing,
    get_properties sample_db = Ok (Success listing) /\
    map (fun d => Property.id (PropDict.row d)) listing
    = [8; 4; 6; 2; 9; 10; 1; 3; 5; 7]%Z /\
    sorted_by_price (map PropDict.row listing).
Proof.
  eexists. split; [vm_compute; reflexivity|]. split; [reflexivity|].
  refine (proj1 (proj2 (proj1 (get_properties_outcomes sample_db) _ _))).
  vm_compute. reflexivity.
Defined.

(** After a property with price 0 is added to the seeded catalog the
    listing raises. *)
Example listing_breaks_on_free_property :
  get_properties
    (snd (insert_property sample_db
            (NewProperty.mk "Gift" "Nowhere" 0 100 0 0 "Low" "Land" None None)))
  = Raise ZeroDivisionError.
Proof. reflexivity. Qed.

(** ** Adding and using profiles *)

(** X6: a profile added with all required fields gets a non-zero id that no
    stored profile has; afterwards get_profile returns it under that id with
    the submitted values, a recommendation request for that id resolves to
    it, and every profile that could be selected before still is. *)
Theorem added_profile_is_usable (db : database) (data : ProfileForm.t)
  (profile_id : Z) (message : string) (db' : database) :
  add_profile db data = (Created profile_id message, db') ->
  select_profile db profile_id = None /\
  profile_id <> 0%Z /\
  (exists profile,
     get_profile db' profile_id = Success profile /\
     (forall custom top_n,
        resolve_profile db' (Request.mk (Some profile_id) custom top_n)
        = inl profile) /\
     Profile.id profile = Some profile_id /\
     ProfileForm.name data = Some (Profile.name profile) /\
     ProfileForm.budget_min data = Some (Profile.budget_min profile) /\
     ProfileForm.budget_max data = Some (Profile.budget_max profile) /\
     ProfileForm.risk_tolerance data = Some (Profile.risk_tolerance profile) /\
     ProfileForm.investment_horizon data
     = Some (Profile.investment_horizon profile) /\
     ProfileForm.min_rental_yield data = Some (Profile.min_rental_yield profile) /\
     ProfileForm.min_roi data = Some (Profile.min_roi profile)) /\
  (forall other profile,
     select_profile db other = Some profile ->
     select_profile db' other = Some profile) /\
  properties db' = properties db /\
  recommendations db' = recommendations db.
Proof.
  unfold add_profile. destruct (profile_values data) as [v|] eqn:Ev;
    [|discriminate].
  cbn [insert_profile]. intros H. injection H as <- _ <-.
  set (i := next_id (map profile_key (investor_profiles db))).
  assert (Hpos : (0 < i)%Z) by apply next_id_positive.
  assert (Hsel : select_profile
                   {| properties := properties db;
                      investor_profiles :=
                        investor_profiles db
                        ++ [Profile.mk (Some i) (NewProfile.name v)
                              (NewProfile.budget_min v) (NewProfile.budget_max v)
                              (NewProfile.risk_tolerance v)
                              (NewProfile.investment_horizon v)
                              (NewProfile.preferred_locations v)
                              (NewProfile.min_rental_yield v) (NewProfile.min_roi v)];
                      recommendations := recommendations db |} i
                 = Some (Profile.mk (Some i) (NewProfile.name v)
                           (NewProfile.budget_min v) (NewProfile.budget_max v)
                           (NewProfile.risk_tolerance v)
                           (NewProfile.investment_horizon v)
                           (NewProfile.preferred_locations v)
                           (NewProfile.min_rental_yield v) (NewProfile.min_roi v))).
  { unfold select_profile at 1. cbn [investor_profiles].
    rewrite find_app_none by apply select_profile_fresh.
    cbn [find Profile.id]. now rewrite Z.eqb_refl. }
  split; [apply select_profile_fresh|]. split; [lia|]. split; [|split].
  - eexists. split; [unfold get_profile; rewrite Hsel; reflexivity|]. split.
    + intros custom top_n. unfold resolve_profile.
      cbn [Request.profile_id truthy_int].
      assert (E : (i =? 0)%Z = false) by (apply Z.eqb_neq; lia).
      rewrite E. cbn [negb]. now rewrite Hsel.
    + cbn [Profile.id Profile.name Profile.budget_min Profile.budget_max
             Profile.risk_tolerance Profile.investment_horizon
             Profile.min_rental_yield Profile.min_roi].
      unfold profile_values in Ev.
      destruct (ProfileForm.name data), (ProfileForm.budget_min data),
        (ProfileForm.budget_max data), (ProfileForm.risk_tolerance data),
        (ProfileForm.investment_horizon data),
        (ProfileForm.min_rental_yield data), (ProfileForm.min_roi data);
        try discriminate.
      injection Ev as <-. repeat split.
  - intros other profile H. unfold select_profile in *. cbn [investor_profiles].
    now apply find_app_some.
  - split; reflexivity.
Qed.

Lemma added_profile_is_usable_witness :
  exists db' profile,
    add_profile sample_db newcomer_form
    = (Created 6 "Profile added successfully", db') /\
    get_profile db' 6 = Success profile /\
    Profile.name profile = "Newcomer"%string /\
    resolve_profile db' (request_for 6 None) = inl profile.
Proof.
  eexists.
  destruct (added_profile_is_usable sample_db newcomer_form 6 _ _ eq_refl)
    as (_ & _ & (profile & Hget & Hres & _ & Hname & _) & _).
  exists profile. split; [reflexivity|]. split; [exact Hget|].
  split; [now injection Hname | apply Hres].
Defined.

(** X7: a profile added without preferred_locations is stored with the empty
    string, so scoring against it awards no location bonus to any property;
    one added with a text stores that text. *)
Theorem added_profile_default_locations (db : database) (data : ProfileForm.t)
  (profile_id : Z) (message : string) (db' : database) :
  add_profile db data = (Created profile_id message, db') ->
  exists profile,
    select_profile db' profile_id = Some profile /\
    (ProfileForm.preferred_locations data = None ->
     Profile.preferred_locations profile = Some ""%string /\
     forall property, location_section property profile = (0, [])) /\
    (forall s, ProfileForm.preferred_locations data = Some s ->
               Profile.preferred_locations profile = Some s).
Proof.
  unfold add_profile. destruct (profile_values data) as [v|] eqn:Ev;
    [|discriminate].
  cbn [insert_profile]. intros H. injection H as <- _ <-.
  eexists. split.
  - unfold select_profile at 1. cbn [investor_profiles].
    rewrite find_app_none by apply select_profile_fresh.
    cbn [find Profile.id]. rewrite Z.eqb_refl. reflexivity.
  - cbn [Profile.preferred_locations]. unfold profile_values in Ev.
    destruct (ProfileForm.name data), (ProfileForm.budget_min data),
      (ProfileForm.budget_max data), (ProfileForm.risk_tolerance data),
      (ProfileForm.investment_horizon data),
      (ProfileForm.min_rental_yield data), (ProfileForm.min_roi data);
      try discriminate.
    injection Ev as <-. cbn [NewProfile.preferred_locations]. split.
    + intros ->. split; [reflexivity|]. intros property.
      unfold location_section. reflexivity.
    + intros loc ->. reflexivity.
Qed.

Lemma added_profile_default_locations_witness :
  exists db' profile,
    add_profile sample_db newcomer_form
    = (Created 6 "Profile added successfully", db') /\
    select_profile db' 6 = Some profile /\
    forall property, location_section property profile = (0, []).
Proof.
  eexists.
  destruct (added_profile_default_locations sample_db newcomer_form 6 _ _ eq_refl)
    as (profile & Hsel & Hnone & _).
  exists profile. split; [reflexivity|]. split; [exact Hsel|].
  apply (Hnone eq_refl).
Defined.

(** ** The reasoning *)

Lemma price_section_topic (property : Property.t) (profile : Profile.t) p :
  price_section property profile = Ok p -> topic_of (snd p) = AboutPrice.
Proof.
  unfold price_section.
  destruct (Qle_bool _ _ && Qle_bool _ _); [now intros [= <-]|].
  intros H. apply bind_Ok_inv in H as (r & _ & H).
  destruct (Qlt_bool _ _); [|now injection H as <-].
  apply bind_Ok_inv in H as (q & _ & H). now injection H as <-.
Qed.

Lemma risk_section_topic (property : Property.t) (profile : Profile.t) p :
  risk_section property profile = Ok p -> topic_of (snd p) = AboutRisk.
Proof.
  unfold risk_section. intros H.
  apply bind_Ok_inv in H as (row & _ & H).
  apply bind_Ok_inv in H as (v & _ & H). injection H as <-.
  cbn [snd]. now destruct (Qeq_bool v 20).
Qed.

Lemma yield_section_topic (property : Property.t) (profile : Profile.t) p :
  yield_section property profile = Ok p -> topic_of (snd p) = AboutYield.
Proof.
  unfold yield_section. intros H.
  apply bind_Ok_inv in H as (v & _ & H).
  destruct (Qle_bool _ _); now injection H as <-.
Qed.

Lemma roi_section_topic (property : Property.t) (profile : Profile.t) p :
  roi_section property profile = Ok p -> topic_of (snd p) = AboutRoi.
Proof.
  unfold roi_section. intros H.
  apply bind_Ok_inv in H as (v & _ & H).
  destruct (Qle_bool _ _); now injection H as <-.
Qed.

(** X8: the reasoning of a returned score has one line about the price, one
    about the risk, one about the yield and one about the ROI, in this
    order, followed by a line about the location exactly when the location
    bonus of 10 is awarded. *)
Theorem reasoning_order (property : Property.t) (profile : Profile.t) s why :
  calculate_investment_score property profile = Ok (s, why) ->
  exists l,
    score_locals property profile = Ok l /\
    ((location_bonus l = 0 /\
      map topic_of why = [AboutPrice; AboutRisk; AboutYield; AboutRoi]) \/
     (location_bonus l = 10 /\
      map topic_of why
      = [AboutPrice; AboutRisk; AboutYield; AboutRoi; AboutLocation])).
Proof.
  unfold calculate_investment_score. intros H.
  apply bind_Ok_inv in H as (l & Hloc & H). injection H as _ <-.
  exists l. split; [exact Hloc|].
  destruct (score_locals_sections _ _ _ Hloc)
    as (p & r & y & n & Hp & Hr & Hy & Hn & _ & _ & _ & _ & -> & _ & ->).
  apply price_section_topic in Hp. apply risk_section_topic in Hr.
  apply yield_section_topic in Hy. apply roi_section_topic in Hn.
  destruct (location_section_values property profile) as [-> | ->];
    cbn [fst snd app map]; rewrite Hp, Hr, Hy, Hn; [left|right];
    split; reflexivity.
Qed.

Lemma reasoning_order_witness :
  exists s why,
    calculate_investment_score downtown_apartment conservative = Ok (s, why) /\
    map topic_of why = [AboutPrice; AboutRisk; AboutYield; AboutRoi].
Proof.
  do 2 eexists. split; [reflexivity|].
  destruct (reasoning_order downtown_apartment conservative _ _ eq_refl)
    as (l & Hl & [[_ H]|[Hb _]]).
  - exact H.
  - exfalso. revert Hl Hb. vm_compute. intros Hl. injection Hl as <-.
    discriminate.
Defined.

(** ** Recommendations: history, repetition, failures *)

(** The history after the seeded profile 1 asks for two recommendations:
    two rows, for the properties 2 and 9, under profile 1. *)
Lemma history_written_on_success_only_witness :
  exists body db',
    get_recommendations sample_db (request_for 1 (Some 2%Z))
    = (Ok (Success body), db') /\
    map (fun h => (History.investor_profile_id h, History.property_id h))
      (recommendations db')
    = [(Some 1, 2); (Some 1, 9)]%Z.
Proof.
  destruct (get_recommendations_total sample_db (request_for 1 (Some 2%Z))
              conservative eq_refl sample_catalog_scorable)
    as (body & db' & H).
  exists body, db'. split; [exact H|].
  pose proof (history_written_on_success_only _ _ _ _ H) as Hh.
  cbn beta iota in Hh. rewrite Hh. clear Hh.
  revert H. vm_compute. intros H. injection H as <- _. reflexivity.
Defined.

Lemma resolve_profile_ext (db1 db2 : database) (data : Request.t) :
  investor_profiles db1 = investor_profiles db2 ->
  resolve_profile db1 data = resolve_profile db2 data.
Proof.
  intros H. unfold resolve_profile, select_profile. now rewrite H.
Qed.

Lemma get_recommendations_ext (db1 db2 : database) (data : Request.t) :
  properties db1 = properties db2 ->
  investor_profiles db1 = investor_profiles db2 ->
  fst (get_recommendations db1 data) = fst (get_recommendations db2 data).
Proof.
  intros Hp Hi. unfold get_recommendations.
  rewrite (resolve_profile_ext db1 db2 data Hi), Hp.
  destruct (resolve_profile db2 data) as [profile|err]; [|reflexivity].
  destruct (mapM _ _); reflexivity.
Qed.

Lemma get_recommendations_tables (db : database) (data : Request.t) out db' :
  get_recommendations db data = (out, db') ->
  properties db' = properties db /\
  investor_profiles db' = investor_profiles db.
Proof.
  unfold get_recommendations.
  destruct (resolve_profile db data) as [profile|err].
  - destruct (mapM _ _); intros H; injection H as _ <-; split; reflexivity.
  - intros H; injection H as _ <-; split; reflexivity.
Qed.

(** X10: a recommendation request changes neither the catalog nor the profiles,
    and its answer does not depend on the history: the same request on the
    database it leaves behind gets the same answer, with the same scores in
    the same order. *)
Theorem repeated_request_same_answer (db : database) (data : Request.t) out db' :
  get_recommendations db data = (out, db') ->
  properties db' = properties db /\
  investor_profiles db' = investor_profiles db /\
  fst (get_recommendations db' data) = out.
Proof.
  intros H. destruct (get_recommendations_tables _ _ _ _ H) as [Hp Hi].
  split; [exact Hp|]. split; [exact Hi|].
  rewrite (get_recommendations_ext db' db data Hp Hi). now rewrite H.
Qed.

Lemma repeated_request_same_answer_witness :
  exists out db',
    get_recommendations sample_db (request_for 1 None) = (out, db') /\
    List.length (recommendations db') = 5%nat /\
    fst (get_recommendations db' (request_for 1 None)) = out.
Proof.
  do 2 eexists. split; [vm_compute; reflexivity|]. split; [reflexivity|].
  refine (proj2 (proj2 (repeated_request_same_answer sample_db
                          (request_for 1 None) _ _ _))).
  vm_compute. reflexivity.
Defined.

Lemma mapM_raises_some {A B : Type} (f : A -> result B) (xs : list A) (x : A) e0 :
  In x xs -> f x = Raise e0 -> exists e, mapM f xs = Raise e.
Proof.
  induction xs as [|a t IH]; [contradiction|].
  intros Hin Hx. cbn [mapM].
  destruct (f a) as [b|e'] eqn:Ea; [|eexists; reflexivity].
  destruct Hin as [->|Hin]; [congruence|].
  destruct (IH Hin Hx) as [e He]. cbn [bind]. rewrite He.
  eexists. reflexivity.
Qed.

Lemma risk_section_unknown_level (property : Property.t) (profile : Profile.t) :
  In (Profile.risk_tolerance profile) risk_levels ->
  ~ In (Property.risk_level property) risk_levels ->
  risk_section property profile = Raise (KeyError (Property.risk_level property)).
Proof.
  intros Ht H. unfold risk_section.
  assert (Hrow : forall a b c : Q,
             dict_get [("Low"%string, a); ("Medium"%string, b); ("High"%string, c)]
               (Property.risk_level property)
             = Raise (KeyError (Property.risk_level property))).
  { intros a b c. cbn [dict_get].
    destruct (String.eqb_spec "Low" (Property.risk_level property)) as [E|_];
      [exfalso; apply H; rewrite <- E; simpl; auto|].
    destruct (String.eqb_spec "Medium" (Property.risk_level property)) as [E|_];
      [exfalso; apply H; rewrite <- E; simpl; auto|].
    destruct (String.eqb_spec "High" (Property.risk_level property)) as [E|_];
      [exfalso; apply H; rewrite <- E; simpl; auto|].
    reflexivity. }
  cbn [In risk_levels] in Ht.
  destruct Ht as [<-|[<-|[<-|[]]]];
    match goal with
    | |- bind (dict_get ?d ?k) _ = _ =>
        let r := eval vm_compute in (dict_get d k) in
        change (dict_get d k) with r
    end;
    cbn [bind]; now rewrite Hrow.
Qed.

(** X11: a risk category outside Low, Medium, High never gets a score: once the
    price section has returned, the function raises KeyError with the
    unknown category, the investor's tolerance first. *)
Theorem unknown_risk_category_raises (property : Property.t) (profile : Profile.t) p :
  price_section property profile = Ok p ->
  (~ In (Profile.risk_tolerance profile) risk_levels ->
   calculate_investment_score property profile
   = Raise (KeyError (Profile.risk_tolerance profile))) /\
  (In (Profile.risk_tolerance profile) risk_levels ->
   ~ In (Property.risk_level property) risk_levels ->
   calculate_investment_score property profile
   = Raise (KeyError (Property.risk_level property))).
Proof.
  intros Hp. unfold calculate_investment_score, score_locals. rewrite Hp.
  cbn [bind]. split.
  - intros H. now rewrite risk_section_unknown_tolerance.
  - intros Ht H. now rewrite risk_section_unknown_level.
Qed.

Lemma unknown_risk_category_raises_witness :
  calculate_investment_score loft conservative = Raise (KeyError "Very High").
Proof.
  refine (proj2 (unknown_risk_category_raises loft conservative
                   (25, PriceFits 300000) eq_refl) _ _).
  - simpl. auto.
  - simpl. intros [H|[H|[H|[]]]]; discriminate.
Defined.

Lemma score_property_zero_price (profile : Profile.t) (prop : Property.t) :
  Property.price prop == 0 ->
  score_property profile prop = Raise ZeroDivisionError.
Proof.
  intros Hz. unfold score_property, calculate_rental_yield.
  now rewrite py_div_zero by assumption.
Qed.

Lemma score_property_unknown_risk (profile : Profile.t) (prop : Property.t) :
  ~ In (Profile.risk_tolerance profile) risk_levels \/
  ~ In (Property.risk_level prop) risk_levels ->
  exists e, score_property profile prop = Raise e.
Proof.
  intros H. unfold score_property.
  destruct (calculate_rental_yield _ _); [|eexists; reflexivity].
  destruct (calculate_net_roi _ _ _); [|eexists; reflexivity].
  cbn [bind].
  destruct (price_section prop profile) as [p|e] eqn:Ep.
  - unfold calculate_investment_score, score_locals. rewrite Ep. cbn [bind].
    destruct (in_dec string_dec (Profile.risk_tolerance profile) risk_levels)
      as [Ht|Ht].
    + destruct H as [H|H]; [contradiction|].
      rewrite risk_section_unknown_level by assumption.
      eexists. reflexivity.
    + rewrite risk_section_unknown_tolerance by assumption.
      eexists. reflexivity.
  - unfold calculate_investment_score, score_locals. rewrite Ep.
    eexists. reflexivity.
Qed.

(** X12: one property that cannot be scored (price 0, or a risk category outside
    the table on either side) makes the whole recommendation request raise,
    whatever the other properties are, and the database stays as it was. *)
Theorem one_unscorable_property_fails_request
  (db : database) (data : Request.t) (profile : Profile.t) (prop : Property.t) :
  resolve_profile db data = inl profile ->
  In prop (properties db) ->
  Property.price prop == 0 \/
  ~ In (Profile.risk_tolerance profile) risk_levels \/
  ~ In (Property.risk_level prop) risk_levels ->
  exists e, get_recommendations db data = (Raise e, db).
Proof.
  intros Hr Hin Hbad.
  assert (Hone : exists e0, score_property profile prop = Raise e0).
  { destruct Hbad as [Hz|Hrisk].
    - eexists. now apply score_property_zero_price.
    - now apply score_property_unknown_risk. }
  destruct Hone as [e0 He0].
  destruct (mapM_raises_some (score_property profile) (properties db) prop e0
              Hin He0) as [e He].
  exists e. unfold get_recommendations. now rewrite Hr, He.
Qed.

(** A free property (price 0) appended to the seeded catalog makes the
    request of profile 1 raise. *)
Lemma one_unscorable_property_fails_request_witness :
  exists e,
    get_recommendations db_with_free_property (request_for 1 None)
    = (Raise e, db_with_free_property).
Proof.
  refine (one_unscorable_property_fails_request db_with_free_property
            (request_for 1 None) conservative free_property eq_refl _ _).
  - cbn [properties db_with_free_property]. apply in_or_app. right. now left.
  - left. reflexivity.
Defined.

(** ** Component bands *)

Lemma Qdiv_gt_1 (a b : Q) : 0 < b -> b < a -> 1 < a / b.
Proof.
  intros Hb Hab. apply Qlt_shift_div_l; [exact Hb|]. lra.
Qed.

Lemma py_max0_le_25 (r : Q) : 1 <= r -> py_max 0 (25 - (r - 1) * 50) <= 25.
Proof.
  intros Hr. unfold py_max. destruct (Qlt_bool 0 _); lra.
Qed.

(** X13: with a positive price and a positive budget_max every component of a
    returned score stays in its band: price fit in [0, 25], risk alignment
    in [5, 20], yield in [0, 30], ROI in [0, 25], location bonus 0 or 10;
    their sum, which is what the final min(100, .) clamps, is then at most
    110. *)
Theorem component_bands (property : Property.t) (profile : Profile.t) (l : locals) :
  score_locals property profile = Ok l ->
  0 < Property.price property ->
  0 < Profile.budget_max profile ->
  0 <= price_fit l /\ price_fit l <= 25 /\
  5 <= risk_score l /\ risk_score l <= 20 /\
  0 <= yield_score l /\ yield_score l <= 30 /\
  0 <= roi_score l /\ roi_score l <= 25 /\
  (location_bonus l = 0 \/ location_bonus l = 10) /\
  score l == price_fit l + risk_score l + yield_score l + roi_score l
             + location_bonus l /\
  score l <= 110.
Proof.
  intros Hloc Hprice Hmax.
  destruct (score_locals_sections _ _ _ Hloc)
    as ([pf pw] & [rs rw] & [ys yw] & [ns nw] & Hps & Hrs & Hys & Hns
        & Epf & Ers & Eys & Ens & Elb & Esc & _).
  cbn [fst] in *.
  assert (Hpf : 0 <= pf /\ pf <= 25).
  { split; [now apply price_section_nonneg in Hps|].
    apply price_section_cases in Hps
      as [[_ ->]|[(Hlt & _ & ->)|(Hlt & _ & _ & ->)]].
    - discriminate.
    - apply py_max0_le_25, Qlt_le_weak, Qdiv_gt_1; assumption.
    - apply py_max0_le_25, Qlt_le_weak, Qdiv_gt_1; assumption. }
  apply risk_section_bounds in Hrs. apply yield_section_bounds in Hys.
  apply roi_section_bounds in Hns.
  assert (Hlb : location_bonus l = 0 \/ location_bonus l = 10).
  { rewrite Elb.
    destruct (location_section_values property profile) as [-> | ->];
      cbn [fst]; auto. }
  assert (Hsum : score l == price_fit l + risk_score l + yield_score l
                            + roi_score l + location_bonus l).
  { rewrite Esc, <- Epf, <- Ers, <- Eys, <- Ens, <- Elb. ring. }
  rewrite Epf, Ers, Eys, Ens.
  repeat (split; [tauto|]).
  split; [rewrite Hsum, Epf, Ers, Eys, Ens; reflexivity|].
  rewrite Hsum, Epf, Ers, Eys, Ens.
  destruct Hlb as [-> | ->]; lra.
Qed.

(** The clamp is at work on the seeded data: the suburban family home
    against the conservative profile sums 25 + 20 + 28 + 23 + 10 = 106. *)
Lemma component_bands_witness :
  exists l,
    score_locals (nth 1 sample_properties downtown_apartment) conservative = Ok l /\
    score l == 106 /\ score l <= 110 /\ price_fit l <= 25.
Proof.
  eexists. split; [reflexivity|].
  destruct (component_bands (nth 1 sample_properties downtown_apartment)
              conservative _ eq_refl)
    as (_ & Hpf & _ & _ & _ & _ & _ & _ & _ & _ & Hs).
  - reflexivity.
  - reflexivity.
  - split; [reflexivity|]. split; [exact Hs | exact Hpf].
Defined.

(** X14: the bands need the positive budget_max: for a negative budget_max every
    positively priced property gets a price fit above 75. *)
Theorem negative_budget_max_inflates_price_fit
  (property : Property.t) (profile : Profile.t) :
  Profile.budget_max profile < 0 ->
  0 < Property.price property ->
  exists v why,
    price_section property profile = Ok (v, why) /\ 75 < v.
Proof.
  intros Hneg Hpos.
  assert (Hn : ~ Profile.budget_max profile == 0) by lra.
  rewrite price_section_over by (assumption || lra).
  do 2 eexists. split; [reflexivity|].
  assert (Hq : Property.price property / Profile.budget_max profile < 0).
  { unfold Qdiv.
    pose proof (Qmult_inv_r _ Hn) as Hi.
    set (i := / Profile.budget_max profile) in *.
    assert (i < 0) by nra. nra. }
  unfold py_max. destruct (Qlt_bool 0 _) eqn:E.
  - lra.
  - apply Qlt_bool_false_iff in E. lra.
Qed.

Lemma negative_budget_max_inflates_price_fit_witness :
  exists v why,
    price_section downtown_apartment
      (Profile.mk None "Debtor" (-2) (-1) "Low" "Short-term (1-5 years)" None 5 3)
    = Ok (v, why) /\ 75 < v.
Proof.
  apply negative_budget_max_inflates_price_fit; reflexivity.
Defined.

(** ** Location matching *)

Lemma prefix_spec (p s : string) :
  String.prefix p s = true <-> exists b, s = String.append p b.
Proof.
  revert s. induction p as [|a p IH]; intros s.
  - rewrite prefix_empty. split; [intros _; now exists s | reflexivity].
  - destruct s as [|c s]; cbn [String.prefix String.append].
    + split; [discriminate | intros [b H]; discriminate].
    + destruct (ascii_dec a c) as [->|Hne].
      * rewrite IH. split; intros [b H]; exists b; congruence.
      * split; [discriminate | intros [b H]; congruence].
Qed.

Lemma str_in_spec (p s : string) :
  str_in p s = true <->
  exists a b, s = String.append a (String.append p b).
Proof.
  induction s as [|c s IH].
  - cbn [str_in]. rewrite orb_false_r, prefix_spec. split.
    + intros [b H]. now exists EmptyString, b.
    + intros (a & b & H). destruct a; [now exists b|discriminate].
  - cbn [str_in]. rewrite orb_true_iff, prefix_spec, IH. split.
    + intros [[b H]|(a & b & H)].
      * now exists EmptyString, b.
      * exists (String c a), b. cbn [String.append]. now rewrite H.
    + intros (a & b & H). destruct a as [|c' a]; cbn [String.append] in H.
      * left. now exists b.
      * right. exists a, b. congruence.
Qed.

(** X15: for ASCII texts, with a non-empty preferred_locations the bonus is 10
    exactly when the lowered location of the property contains, as a
    contiguous substring, one of the terms (split on commas, stripped and
    lowered), and 0 with no reasoning line otherwise. *)
Theorem location_bonus_iff_substring
  (property : Property.t) (profile : Profile.t) (s : string) :
  Profile.preferred_locations profile = Some s ->
  s <> ""%string ->
  is_ascii s ->
  is_ascii (Property.location property) ->
  (location_section property profile = (10, [LocationMatches]) <->
   exists term before after,
     In term (preferred_locs s) /\
     lower (Property.location property)
     = String.append before (String.append term after)) /\
  (location_section property profile = (10, [LocationMatches]) \/
   location_section property profile = (0, [])).
Proof.
  intros Hs Hne _ _. unfold location_section. rewrite Hs.
  destruct s as [|c t]; [contradiction|]. cbn [truthy_str].
  destruct (existsb _ _) eqn:E.
  - split; [|now left]. split; [intros _|reflexivity].
    apply existsb_exists in E as (term & Hin & Hterm).
    apply str_in_spec in Hterm as (a & b & H). now exists term, a, b.
  - split; [|now right]. split; [discriminate|].
    intros (term & a & b & Hin & H). exfalso.
    assert (Et : existsb (fun pref => str_in pref (lower (Property.location property)))
                   (preferred_locs (String c t)) = true).
    { apply existsb_exists. exists term. split; [exact Hin|].
      apply str_in_spec. now exists a, b. }
    congruence.
Qed.

(** The balanced investor of the seed prefers Downtown and Metro Center:
    the Mid-Rise Condo in Metro Center matches the second term. *)
Lemma location_bonus_iff_substring_witness :
  location_section (nth 8 sample_properties downtown_apartment)
    (nth 1 sample_profiles conservative) = (10, [LocationMatches]).
Proof.
  refine (proj2 (proj1 (location_bonus_iff_substring
                          (nth 8 sample_properties downtown_apartment)
                          (nth 1 sample_profiles conservative)
                          "Downtown, Metro Center" eq_refl _ eq_refl eq_refl)) _).
  - discriminate.
  - exists "metro center"%string, ""%string, ""%string.
    split; [simpl; auto | reflexivity].
Defined.

Lemma lower_ascii_idem (c : ascii) : lower_ascii (lower_ascii c) = lower_ascii c.
Proof. destruct c as [[] [] [] [] [] [] [] []]; reflexivity. Qed.

Lemma is_space_lower (c : ascii) : is_space (lower_ascii c) = is_space c.
Proof. destruct c as [[] [] [] [] [] [] [] []]; reflexivity. Qed.

Lemma comma_lower (c : ascii) :
  Ascii.eqb (lower_ascii c) ","%char = Ascii.eqb c ","%char.
Proof. destruct c as [[] [] [] [] [] [] [] []]; reflexivity. Qed.

Lemma lower_idem (s : string) : lower (lower s) = lower s.
Proof.
  induction s as [|c t IH]; cbn [lower]; [reflexivity|].
  now rewrite lower_ascii_idem, IH.
Qed.

Lemma lower_lstrip (s : string) : lstrip (lower s) = lower (lstrip s).
Proof.
  induction s as [|c t IH]; cbn [lower lstrip]; [reflexivity|].
  rewrite is_space_lower. now destruct (is_space c).
Qed.

Lemma lower_rstrip (s : string) : rstrip (lower s) = lower (rstrip s).
Proof.
  induction s as [|c t IH]; cbn [lower rstrip]; [reflexivity|].
  rewrite IH, is_space_lower.
  destruct (rstrip t); cbn [lower]; [now destruct (is_space c)|reflexivity].
Qed.

Lemma lower_strip (s : string) : strip (lower s) = lower (strip s).
Proof. unfold strip. now rewrite lower_lstrip, lower_rstrip. Qed.

Lemma split_comma_lower (s : string) :
  split_comma (lower s) = map lower (split_comma s).
Proof.
  induction s as [|c t IH]; cbn [lower split_comma]; [reflexivity|].
  rewrite comma_lower, IH.
  destruct (Ascii.eqb c ","%char); [reflexivity|].
  now destruct (split_comma t).
Qed.

Lemma preferred_locs_lower (s : string) :
  preferred_locs (lower s) = preferred_locs s.
Proof.
  unfold preferred_locs. rewrite split_comma_lower, map_map.
  apply map_ext. intros x. now rewrite lower_strip, lower_idem.
Qed.

Lemma lower_empty_iff (s : string) : lower s = ""%string <-> s = ""%string.
Proof. destruct s; cbn [lower]; split; intros H; auto; discriminate. Qed.

(** X16: matching ignores letter case on both sides: two profiles whose
    preferred_locations differ only in case, against two properties whose
    locations differ only in case, get the same location bonus. *)
Theorem location_match_ignores_case
  (property property' : Property.t) (profile profile' : Profile.t) (s s' : string) :
  Profile.preferred_locations profile = Some s ->
  Profile.preferred_locations profile' = Some s' ->
  lower s = lower s' ->
  lower (Property.location property) = lower (Property.location property') ->
  location_section property profile = location_section property' profile'.
Proof.
  intros Hs Hs' Es El. unfold location_section. rewrite Hs, Hs', El.
  rewrite <- (preferred_locs_lower s), <- (preferred_locs_lower s'), Es.
  destruct s as [|c t], s' as [|c' t']; cbn [truthy_str]; try reflexivity.
  - symmetry in Es. apply lower_empty_iff in Es. discriminate.
  - apply lower_empty_iff in Es. discriminate.
Qed.

Lemma location_match_ignores_case_witness :
  location_section downtown_apartment (prefers (Some "DOWNTOWN"%string))
  = location_section downtown_apartment (prefers (Some "downtown"%string)) /\
  location_section downtown_apartment (prefers (Some "DOWNTOWN"%string))
  = (10, [LocationMatches]).
Proof.
  split; [|reflexivity].
  apply (location_match_ignores_case _ _ _ _ "DOWNTOWN" "downtown");
    reflexivity.
Defined.

(** ** Comparison: empty and unknown ids *)

(** X17: a comparison request without ids is answered 400; ids, within the
    integers SQLite binds, that select no stored property are skipped without
    an error, so a request of such unknown ids only is answered with an empty
    list. *)
Theorem comparison_of_unknown_ids (db : database) (property_ids : list Z) :
  compare_properties db [] = Ok (Error 400 "Property IDs required") /\
  (property_ids <> [] ->
   Forall sqlite_int property_ids ->
   (forall prop_id, In prop_id property_ids -> select_property db prop_id = None) ->
   compare_properties db property_ids = Ok (Success [])).
Proof.
  split; [reflexivity|]. intros Hne _ Hnone.
  assert (Hloop : compare_loop db property_ids = Ok []).
  { clear Hne. induction property_ids as [|i t IH]; cbn [compare_loop];
      [reflexivity|].
    rewrite (Hnone i) by now left. apply IH. intros j Hj. apply Hnone. now right. }
  unfold compare_properties. destruct property_ids; [contradiction|].
  now rewrite Hloop.
Qed.

Lemma comparison_of_unknown_ids_witness :
  compare_properties sample_db [0; 11; 99]%Z = Ok (Success []).
Proof.
  refine (proj2 (comparison_of_unknown_ids sample_db [0; 11; 99]%Z) _ _ _).
  - discriminate.
  - repeat constructor; unfold sqlite_int; lia.
  - intros prop_id [<-|[<-|[<-|[]]]]; reflexivity.
Defined.
